(** * Oryol: the D3D11 shader factory and the GPUParticles sample

    A shallow embedding of
    - [code/Modules/Gfx/d3d11/d3d11ShaderFactory.cc]: every method of
      [d3d11ShaderFactory], as a computation in a small monad that threads
      the device state and the [shader] object, can stop in a fatal fault,
      and records the calls made on the collaborators (renderer, device,
      device objects);
    - [code/Samples/GPUParticles/GPUParticles.cc]: the integer part of
      [GPUParticlesApp::OnRunning] (frame counter, particle counter,
      ping-pong indices, scissor height).

    Integers are [Z] with the 32-bit wrap-around written out. *)

From Stdlib Require Import ZArith List Bool Lia.
Import ListNotations.
Local Open Scope Z_scope.

Set Implicit Arguments.

(* ================================================================== *)
(** * Machine types *)

Definition int32_wrap (z : Z) : Z := (z + 2 ^ 31) mod 2 ^ 32 - 2 ^ 31.
Definition uint32_wrap (z : Z) : Z := z mod 2 ^ 32.

(** Addresses; [nullptr] is address 0. *)
Definition ptr := Z.
Definition nullptr : ptr := 0.
Definition NULL : ptr := 0.

(** A C++ pointer used as a condition: [if (p)], [o_assert_dbg(p)]. *)
Definition nonnull (p : ptr) : bool := negb (p =? nullptr).

(** Windows [HRESULT] and the [SUCCEEDED] macro ([hr >= 0]). *)
Definition HRESULT := Z.
Definition SUCCEEDED (hr : HRESULT) : bool := 0 <=? hr.
Definition S_OK : HRESULT := 0.
Definition E_INVALIDARG : HRESULT := int32_wrap 2147942487.
Definition E_OUTOFMEMORY : HRESULT := int32_wrap 2147942414.

(** [D3D11_BUFFER_DESC] and the two d3d11.h constants the factory uses. *)
Record D3D11_BUFFER_DESC := {
  ByteWidth : Z;
  Usage : Z;
  BindFlags : Z;
  CPUAccessFlags : Z;
  MiscFlags : Z;
  StructureByteStride : Z
}.
Definition D3D11_USAGE_DEFAULT : Z := 0.
Definition D3D11_BIND_CONSTANT_BUFFER : Z := 4.

(** The three kinds of device object the factory creates and releases:
    [ID3D11VertexShader], [ID3D11PixelShader], [ID3D11Buffer]. *)
Inductive objkind := VertexShaderObj | PixelShaderObj | BufferObj.

Definition objkind_eqb (a b : objkind) : bool :=
  match a, b with
  | VertexShaderObj, VertexShaderObj => true
  | PixelShaderObj, PixelShaderObj => true
  | BufferObj, BufferObj => true
  | _, _ => false
  end.

(** The device interface [ID3D11Device] as far as the factory calls it.
    A creation call gets the device state and gives the [HRESULT], the
    value left in the out-parameter (which the caller initialised to
    [nullptr]) and the next device state. [Release] is the [IUnknown]
    method of the created objects. *)
Class ID3D11Device (D : Type) := {
  CreateVertexShader : ptr -> Z -> ptr -> D -> HRESULT * ptr * D;
  CreatePixelShader : ptr -> Z -> ptr -> D -> HRESULT * ptr * D;
  CreateBuffer : D3D11_BUFFER_DESC -> ptr -> D -> HRESULT * ptr * D;
  Release : objkind -> ptr -> D -> D
}.

(** What Pre.h brings in and src/ does not hold: the build flavour that
    decides whether [o_assert_dbg] is compiled in, and the value of the
    [InvalidIndex] constant. Both are taken as parameters. *)
Class Pre := {
  ORYOL_DEBUG : bool;
  InvalidIndex : Z
}.

(* ================================================================== *)
(** * Gfx types used by the factory *)

Module ShaderLang.
(** Only [HLSL5] is named in the source; [Other] stands for the rest of
    the enum. *)
Inductive Code := HLSL5 | Other.
End ShaderLang.

Module ShaderType.
Inductive Code := VertexShader | FragmentShader | InvalidShaderType.
End ShaderType.

Module ResourceState.
(** Only [Valid] is named in the source; [Failed] and [Pending] stand for
    the codes that would report an error or an unfinished creation. *)
Inductive Code := Valid | Failed | Pending.
End ResourceState.

Module Memory.
(** Modelled from the spec: [Memory::RoundUp] is declared outside src/.
    The spec has the byte size rounded up to the alignment granularity,
    the smallest multiple of it that is not below the size. *)
Definition RoundUp (val roundTo : Z) : Z :=
  ((val + (roundTo - 1)) / roundTo) * roundTo.

(** [Memory::Clear(&cbDesc, sizeof(cbDesc))]: every field zero. *)
Definition Clear_D3D11_BUFFER_DESC : D3D11_BUFFER_DESC :=
  {| ByteWidth := 0; Usage := 0; BindFlags := 0; CPUAccessFlags := 0;
     MiscFlags := 0; StructureByteStride := 0 |}.
End Memory.

Module UniformLayout.
Record t := { ByteSizeWithoutTextures : Z }.
End UniformLayout.

Module ShaderSetup.
(** Modelled from the spec: the class [ShaderSetup] is declared outside
    src/. The spec's data model: an ordered sequence of program variants
    (mask, vertex and fragment bytecode as pointer and byte length, per
    shading language) and an ordered sequence of uniform-block
    descriptors (bind slot, shader stage, layout). The accessors are the
    ones [SetupResource] calls, by index. *)
Record programEntry := {
  mask : Z;
  vsByteCode : ShaderLang.Code -> ptr * Z;
  fsByteCode : ShaderLang.Code -> ptr * Z
}.
Record uniformBlockEntry := {
  bindSlot : Z;
  bindStage : ShaderType.Code;
  layout : UniformLayout.t
}.
Record t := {
  programs : list programEntry;
  uniformBlocks : list uniformBlockEntry
}.

Definition noProgram : programEntry :=
  {| mask := 0; vsByteCode := fun _ => (nullptr, 0);
     fsByteCode := fun _ => (nullptr, 0) |}.
Definition noUniformBlock : uniformBlockEntry :=
  {| bindSlot := 0; bindStage := ShaderType.InvalidShaderType;
     layout := {| UniformLayout.ByteSizeWithoutTextures := 0 |} |}.

Definition programAt (s : t) (i : Z) : programEntry :=
  nth (Z.to_nat i) (programs s) noProgram.
Definition uniformBlockAt (s : t) (i : Z) : uniformBlockEntry :=
  nth (Z.to_nat i) (uniformBlocks s) noUniformBlock.

Definition NumPrograms (s : t) : Z := Z.of_nat (length (programs s)).
Definition Mask (s : t) (progIndex : Z) : Z := mask (programAt s progIndex).
Definition VertexShaderByteCode (s : t) (progIndex : Z) (slang : ShaderLang.Code)
  : ptr * Z := vsByteCode (programAt s progIndex) slang.
Definition FragmentShaderByteCode (s : t) (progIndex : Z) (slang : ShaderLang.Code)
  : ptr * Z := fsByteCode (programAt s progIndex) slang.
Definition NumUniformBlocks (s : t) : Z := Z.of_nat (length (uniformBlocks s)).
Definition UniformBlockSlot (s : t) (i : Z) : Z := bindSlot (uniformBlockAt s i).
Definition UniformBlockLayout (s : t) (i : Z) : UniformLayout.t :=
  layout (uniformBlockAt s i).
Definition UniformBlockShaderStage (s : t) (i : Z) : ShaderType.Code :=
  bindStage (uniformBlockAt s i).
End ShaderSetup.

Module shader.
(** Modelled from the spec: the resource class [shader] (d3d11Shader) is
    declared outside src/. The spec's data model: the [Setup] it was
    created for, an ordered sequence of variants (mask, vertex-stage
    object, fragment-stage object) and an ordered sequence of uniform
    entries (buffer, shader stage, bind slot). [addShaders] and
    [addUniformBlockEntry] append, the getters read by index, [Clear]
    empties both sequences. *)
Record programEntry := {
  mask : Z;
  vertexShader : ptr;
  pixelShader : ptr
}.
Record ubEntry := {
  d3d11ConstantBuffer : ptr;
  bindShaderStage : ShaderType.Code;
  bindSlotIndex : Z
}.
Record t := {
  Setup : ShaderSetup.t;
  programEntries : list programEntry;
  uniformBlockEntries : list ubEntry
}.

Definition noProgram : programEntry :=
  {| mask := 0; vertexShader := nullptr; pixelShader := nullptr |}.
Definition noEntry : ubEntry :=
  {| d3d11ConstantBuffer := nullptr;
     bindShaderStage := ShaderType.InvalidShaderType;
     bindSlotIndex := 0 |}.

(** A resource as it is before creation: its [Setup] and nothing else. *)
Definition Empty (setup : ShaderSetup.t) : t :=
  {| Setup := setup; programEntries := []; uniformBlockEntries := [] |}.

Definition addShaders (m : Z) (vs ps : ptr) (shd : t) : t :=
  {| Setup := Setup shd;
     programEntries := programEntries shd ++
       [{| mask := m; vertexShader := vs; pixelShader := ps |}];
     uniformBlockEntries := uniformBlockEntries shd |}.

Definition addUniformBlockEntry (cb : ptr) (stage : ShaderType.Code)
    (slot : Z) (shd : t) : t :=
  {| Setup := Setup shd;
     programEntries := programEntries shd;
     uniformBlockEntries := uniformBlockEntries shd ++
       [{| d3d11ConstantBuffer := cb; bindShaderStage := stage;
           bindSlotIndex := slot |}] |}.

Definition getNumPrograms (shd : t) : Z :=
  Z.of_nat (length (programEntries shd)).
Definition getVertexShaderAt (shd : t) (progIndex : Z) : ptr :=
  vertexShader (nth (Z.to_nat progIndex) (programEntries shd) noProgram).
Definition getPixelShaderAt (shd : t) (progIndex : Z) : ptr :=
  pixelShader (nth (Z.to_nat progIndex) (programEntries shd) noProgram).
Definition getNumUniformBlockEntries (shd : t) : Z :=
  Z.of_nat (length (uniformBlockEntries shd)).
(** Returns the buffer; the stage and the slot go to the two
    out-parameters. *)
Definition getUniformBlockEntryAt (shd : t) (index : Z)
  : ptr * ShaderType.Code * Z :=
  let e := nth (Z.to_nat index) (uniformBlockEntries shd) noEntry in
  (d3d11ConstantBuffer e, bindShaderStage e, bindSlotIndex e).

Definition Clear (shd : t) : t :=
  {| Setup := Setup shd; programEntries := []; uniformBlockEntries := [] |}.
End shader.

(** Modelled from the spec: [renderer] and [gfxPointers] are declared
    outside src/. The factory borrows the device handle from the renderer
    ([renderer->d3d11Device]) and keeps a back-reference to the renderer;
    [gfxPointers] holds the pointer to it, null in a default-constructed
    [gfxPointers()]. *)
Record renderer := { renderer_d3d11Device : ptr }.
Record gfxPointers := { gfxPointers_renderer : option renderer }.
Definition gfxPointers_default : gfxPointers :=
  {| gfxPointers_renderer := None |}.

(* ================================================================== *)
(** * Calls on the collaborators, and the monad *)

(** One entry per call the factory makes on the renderer, on the device or
    on a device object, with the arguments and, for a creation call, what
    the device answered. *)
Inductive call :=
| call_invalidateShaderState
| call_CreateVertexShader (byteCode : ptr) (size : Z) (hr : HRESULT) (out : ptr)
| call_CreatePixelShader (byteCode : ptr) (size : Z) (hr : HRESULT) (out : ptr)
| call_CreateBuffer (desc : D3D11_BUFFER_DESC) (hr : HRESULT) (out : ptr)
| call_Release (k : objkind) (obj : ptr).

(** The two ways a call can end the process. *)
Inductive fault := AssertFailed | NullPointer.

Inductive result (A : Type) :=
| Done (a : A)
| Crashed (f : fault).
Arguments Crashed {A} f.

Section Monad.
Context {D : Type}.

(** What the factory's methods read and write besides [this]: the device
    and the [shader&] argument. *)
Record world := { dev : D; shd : shader.t }.

Definition M (A : Type) : Type := world -> result A * world * list call.

Definition ret {A} (a : A) : M A := fun w => (Done a, w, []).

Definition bind {A B} (m : M A) (k : A -> M B) : M B :=
  fun w =>
    match m w with
    | (Done a, w1, t1) =>
        match k a w1 with
        | (r, w2, t2) => (r, w2, t1 ++ t2)
        end
    | (Crashed f, w1, t1) => (Crashed f, w1, t1)
    end.

Definition crash {A} (f : fault) : M A := fun w => (Crashed f, w, []).
Definition emit (c : call) : M unit := fun w => (Done tt, w, [c]).
Definition gets {A} (f : shader.t -> A) : M A := fun w => (Done (f (shd w)), w, []).
Definition modify (f : shader.t -> shader.t) : M unit :=
  fun w => (Done tt, {| dev := dev w; shd := f (shd w) |}, []).
End Monad.
Arguments world D : clear implicits.
Arguments M D A : clear implicits.

Declare Scope monad_scope.
Delimit Scope monad_scope with monad.
Notation "x <- m ;; k" := (bind m (fun x => k))
  (at level 61, m at next level, right associativity) : monad_scope.
Notation "' pat <- m ;; k" := (bind m (fun x => match x with pat => k end))
  (at level 61, pat pattern, m at next level, right associativity) : monad_scope.
Notation "m ;; k" := (bind m (fun _ => k))
  (at level 61, right associativity) : monad_scope.
Open Scope monad_scope.

Section Statements.
Context {D : Type} {device : ID3D11Device D} {pre : Pre}.

(** Modelled from the spec: the macro [o_assert] is defined outside src/.
    The spec has a device-level creation failure end the process: the
    check is always made, and a false condition is a fatal fault. *)
Definition o_assert (cond : bool) : M D unit :=
  if cond then ret tt else crash AssertFailed.

(** Modelled from the spec: the macro [o_assert_dbg] is defined outside
    src/. The spec has it a debug-only contract assertion, disabled in
    optimized builds: [o_assert] in a debug build, nothing otherwise. *)
Definition o_assert_dbg (cond : bool) : M D unit :=
  if ORYOL_DEBUG then o_assert cond else ret tt.

(** [for (int32 i = lo; i < hi; i++)] with the locals that live across
    iterations in [acc]. The body runs for [i < hi] only, [hi] an
    [int32], so [i + 1] does not leave the [int32] range. *)
Fixpoint for_range {A} (n : nat) (i : Z) (body : Z -> A -> M D A) (acc : A)
  : M D A :=
  match n with
  | O => ret acc
  | S n' => acc' <- body i acc ;; for_range n' (i + 1) body acc'
  end.
Definition for_loop {A} (lo hi : Z) (body : Z -> A -> M D A) (acc : A) : M D A :=
  for_range (Z.to_nat (hi - lo)) lo body acc.

(** [this->pointers.renderer->invalidateShaderState()] *)
Definition renderer_invalidateShaderState (r : option renderer) : M D unit :=
  match r with
  | None => crash NullPointer
  | Some _ => emit call_invalidateShaderState
  end.

(** [d3d11Device->CreateVertexShader(ptr, size, NULL, &vs)] *)
Definition d3d11Device_CreateVertexShader (d3d11Device : ptr)
    (byteCode : ptr) (size : Z) (linkage : ptr) : M D (HRESULT * ptr) :=
  if d3d11Device =? nullptr then crash NullPointer else
  fun w =>
    match CreateVertexShader byteCode size linkage (dev w) with
    | (hr, out, d') =>
        (Done (hr, out), {| dev := d'; shd := shd w |},
         [call_CreateVertexShader byteCode size hr out])
    end.

(** [d3d11Device->CreatePixelShader(ptr, size, NULL, &ps)] *)
Definition d3d11Device_CreatePixelShader (d3d11Device : ptr)
    (byteCode : ptr) (size : Z) (linkage : ptr) : M D (HRESULT * ptr) :=
  if d3d11Device =? nullptr then crash NullPointer else
  fun w =>
    match CreatePixelShader byteCode size linkage (dev w) with
    | (hr, out, d') =>
        (Done (hr, out), {| dev := d'; shd := shd w |},
         [call_CreatePixelShader byteCode size hr out])
    end.

(** [d3d11Device->CreateBuffer(&cbDesc, nullptr, &d3d11ConstantBuffer)] *)
Definition d3d11Device_CreateBuffer (d3d11Device : ptr)
    (desc : D3D11_BUFFER_DESC) (initialData : ptr) : M D (HRESULT * ptr) :=
  if d3d11Device =? nullptr then crash NullPointer else
  fun w =>
    match CreateBuffer desc initialData (dev w) with
    | (hr, out, d') =>
        (Done (hr, out), {| dev := d'; shd := shd w |},
         [call_CreateBuffer desc hr out])
    end.

(** [obj->Release()] on a device object. *)
Definition obj_Release (k : objkind) (obj : ptr) : M D unit :=
  fun w => (Done tt, {| dev := Release k obj (dev w); shd := shd w |},
            [call_Release k obj]).
End Statements.

(* ================================================================== *)
(** * d3d11ShaderFactory *)

Module d3d11ShaderFactory.
Section Methods.
Context {D : Type} {device : ID3D11Device D} {pre : Pre}.

Record t := {
  d3d11Device : ptr;
  isValid : bool;
  pointers : gfxPointers
}.

(** Constructor. *)
Definition new : t :=
  {| d3d11Device := nullptr; isValid := false;
     pointers := gfxPointers_default |}.

(** Destructor. *)
Definition delete (this : t) : M D unit :=
  o_assert_dbg (negb (isValid this)).

Definition Setup (this : t) (ptrs : gfxPointers) : M D t :=
  o_assert_dbg (negb (isValid this)) ;;
  match gfxPointers_renderer ptrs with
  | None => crash NullPointer
  | Some r =>
      ret {| d3d11Device := renderer_d3d11Device r; isValid := true;
             pointers := ptrs |}
  end.

Definition Discard (this : t) : M D t :=
  o_assert_dbg (isValid this) ;;
  ret {| d3d11Device := nullptr; isValid := false;
         pointers := gfxPointers_default |}.

Definition IsValid (this : t) : bool := isValid this.

(** Body of the loop over the programs of the bundle. *)
Definition SetupResource_program (this : t) (setup : ShaderSetup.t)
    (slang : ShaderLang.Code) (progIndex : Z) (_ : unit) : M D unit :=
  (* create vertex shader (only support byte code) *)
  let '(vsPtr, vsSize) := ShaderSetup.VertexShaderByteCode setup progIndex slang in
  o_assert_dbg (nonnull vsPtr) ;;
  '(hr, vs) <- d3d11Device_CreateVertexShader (d3d11Device this) vsPtr vsSize NULL ;;
  o_assert (SUCCEEDED hr) ;;
  o_assert_dbg (nonnull vs) ;;
  (* create pixel shader *)
  let '(psPtr, psSize) := ShaderSetup.FragmentShaderByteCode setup progIndex slang in
  o_assert_dbg (nonnull psPtr) ;;
  '(hr, ps) <- d3d11Device_CreatePixelShader (d3d11Device this) psPtr psSize NULL ;;
  o_assert (SUCCEEDED hr) ;;
  o_assert_dbg (nonnull ps) ;;
  (* add vertexshader/pixelshader pair to program bundle *)
  modify (shader.addShaders (ShaderSetup.Mask setup progIndex) vs ps).

(** Body of the loop over the uniform blocks; [cbDesc] is declared before
    the loop and lives across the iterations. *)
Definition SetupResource_uniformBlock (this : t) (setup : ShaderSetup.t)
    (i : Z) (cbDesc : D3D11_BUFFER_DESC) : M D D3D11_BUFFER_DESC :=
  let bindSlotIndex := ShaderSetup.UniformBlockSlot setup i in
  let layout := ShaderSetup.UniformBlockLayout setup i in
  let bindShaderStage := ShaderSetup.UniformBlockShaderStage setup i in
  '(d3d11ConstantBuffer, cbDesc) <-
    (if negb (bindSlotIndex =? InvalidIndex) then
       (* NOTE: constant buffer size must be multiple of 16 bytes *)
       o_assert_dbg (0 <? UniformLayout.ByteSizeWithoutTextures layout) ;;
       let cbDesc :=
         {| ByteWidth := uint32_wrap
              (Memory.RoundUp (UniformLayout.ByteSizeWithoutTextures layout) 16);
            Usage := D3D11_USAGE_DEFAULT;
            BindFlags := D3D11_BIND_CONSTANT_BUFFER;
            CPUAccessFlags := 0;
            MiscFlags := MiscFlags cbDesc;
            StructureByteStride := StructureByteStride cbDesc |} in
       '(hr, cb) <- d3d11Device_CreateBuffer (d3d11Device this) cbDesc nullptr ;;
       o_assert (SUCCEEDED hr) ;;
       o_assert_dbg (nonnull cb) ;;
       ret (cb, cbDesc)
     else ret (nullptr, cbDesc)) ;;
  (* the d3d11ConstantBuffer ptr can be 0 at this point, if the
     uniform block only contains textures *)
  modify (shader.addUniformBlockEntry d3d11ConstantBuffer bindShaderStage
            bindSlotIndex) ;;
  ret cbDesc.

Definition SetupResource (this : t) : M D ResourceState.Code :=
  o_assert_dbg (isValid this) ;;
  o_assert_dbg (nonnull (d3d11Device this)) ;;
  renderer_invalidateShaderState (gfxPointers_renderer (pointers this)) ;;
  let slang := ShaderLang.HLSL5 in
  setup <- gets shader.Setup ;;
  (* for each program in the bundle *)
  let numProgs := ShaderSetup.NumPrograms setup in
  for_loop 0 numProgs (SetupResource_program this setup slang) tt ;;
  (* create constant buffers *)
  for_loop 0 (ShaderSetup.NumUniformBlocks setup)
    (SetupResource_uniformBlock this setup) Memory.Clear_D3D11_BUFFER_DESC ;;
  n <- gets shader.getNumUniformBlockEntries ;;
  o_assert_dbg (n =? ShaderSetup.NumUniformBlocks setup) ;;
  ret ResourceState.Valid.

Definition DestroyResource_program (progIndex : Z) (_ : unit) : M D unit :=
  vs <- gets (fun s => shader.getVertexShaderAt s progIndex) ;;
  (if nonnull vs then obj_Release VertexShaderObj vs else ret tt) ;;
  ps <- gets (fun s => shader.getPixelShaderAt s progIndex) ;;
  (if nonnull ps then obj_Release PixelShaderObj ps else ret tt).

Definition DestroyResource_constantBuffer (cbIndex : Z)
    (dummy : ShaderType.Code * Z) : M D (ShaderType.Code * Z) :=
  '(cb, stage, slot) <- gets (fun s => shader.getUniformBlockEntryAt s cbIndex) ;;
  (if nonnull cb then obj_Release BufferObj cb else ret tt) ;;
  ret (stage, slot).

Definition DestroyResource (this : t) : M D unit :=
  o_assert_dbg (isValid this) ;;
  o_assert_dbg (nonnull (d3d11Device this)) ;;
  renderer_invalidateShaderState (gfxPointers_renderer (pointers this)) ;;
  numProgs <- gets shader.getNumPrograms ;;
  for_loop 0 numProgs DestroyResource_program tt ;;
  let dummySlotIndex := 0 in
  let dummyBindStage := ShaderType.InvalidShaderType in
  numConstantBuffers <- gets shader.getNumUniformBlockEntries ;;
  for_loop 0 numConstantBuffers DestroyResource_constantBuffer
    (dummyBindStage, dummySlotIndex) ;;
  modify shader.Clear.
End Methods.
Arguments t : clear implicits.
End d3d11ShaderFactory.

(* ================================================================== *)
(** * GPUParticles sample: the integer state of [OnRunning] *)

Module GPUParticles.
Definition NumParticleBuffers : Z := 2.
Definition NumParticlesEmittedPerFrame : Z := 100.
Definition NumParticlesX : Z := 1024.
Definition NumParticlesY : Z := 1024.
Definition MaxNumParticles : Z := int32_wrap (NumParticlesX * NumParticlesY).
Definition ParticleBufferWidth : Z := int32_wrap (2 * NumParticlesX).
Definition ParticleBufferHeight : Z := NumParticlesY.

(** The two [int] members of [GPUParticlesApp]. *)
Record GPUParticlesApp := {
  frameCount : Z;
  curNumParticles : Z
}.

(** The member initialisers: [frameCount = 0], [curNumParticles = 0]. *)
Definition new : GPUParticlesApp :=
  {| frameCount := 0; curNumParticles := 0 |}.

(** What one frame hands to Gfx: the index of the particle buffer bound
    as [PrevState] texture, the index of the one applied as render
    target, the scissor rectangle and the number of instances drawn. *)
Record frame := {
  readIndex : Z;
  drawIndex : Z;
  scissorWidth : Z;
  scissorHeight : Z;
  numInstances : Z
}.

Definition OnRunning (this : GPUParticlesApp) : GPUParticlesApp * frame :=
  (* increment frame count *)
  let frameCount := int32_wrap (frameCount this + 1) in
  (* bump number of active particles *)
  let curNumParticles :=
    int32_wrap (curNumParticles this + NumParticlesEmittedPerFrame) in
  let curNumParticles :=
    if curNumParticles >? MaxNumParticles then MaxNumParticles
    else curNumParticles in
  (* ping and pong particle state buffer indices *)
  let readIndex := Z.rem (int32_wrap (frameCount + 1)) NumParticleBuffers in
  let drawIndex := Z.rem frameCount NumParticleBuffers in
  let scissorHeight := int32_wrap (Z.quot curNumParticles NumParticlesX + 1) in
  ({| frameCount := frameCount; curNumParticles := curNumParticles |},
   {| readIndex := readIndex; drawIndex := drawIndex;
      scissorWidth := ParticleBufferWidth; scissorHeight := scissorHeight;
      numInstances := curNumParticles |}).

(** The application after [n] frames. *)
Fixpoint frames (n : nat) (app : GPUParticlesApp) : GPUParticlesApp :=
  match n with
  | O => app
  | S n' => fst (OnRunning (frames n' app))
  end.
End GPUParticles.

(* ================================================================== *)
(** * A device to run the factory on

    Hands out consecutive non-null addresses from [next], keeps the live
    objects,
    rejects empty bytecode and constant buffers above the D3D11 limit of
    4096 sixteen-byte constants. *)

Module SampleDevice.
Record state := {
  next : positive;
  live : list (objkind * ptr)
}.

Definition allocate (k : objkind) (d : state) : HRESULT * ptr * state :=
  (S_OK, Z.pos (next d),
   {| next := Pos.succ (next d); live := live d ++ [(k, Z.pos (next d))] |}).

Fixpoint remove_first (k : objkind) (p : ptr) (l : list (objkind * ptr))
  : list (objkind * ptr) :=
  match l with
  | [] => []
  | (k', p') :: l' =>
      if objkind_eqb k k' && (p =? p') then l'
      else (k', p') :: remove_first k p l'
  end.

#[export] Instance device : ID3D11Device state := {
  CreateVertexShader byteCode size _ d :=
    if size =? 0 then (E_INVALIDARG, nullptr, d) else allocate VertexShaderObj d;
  CreatePixelShader byteCode size _ d :=
    if size =? 0 then (E_INVALIDARG, nullptr, d) else allocate PixelShaderObj d;
  CreateBuffer desc _ d :=
    if 65536 <? ByteWidth desc then (E_OUTOFMEMORY, nullptr, d)
    else allocate BufferObj d;
  Release k obj d := {| next := next d; live := remove_first k obj (live d) |}
}.

Definition fresh : state := {| next := 4096%positive; live := [] |}.

(** A debug and a release build, with [InvalidIndex = -1]. *)
Definition debug_build : Pre := {| ORYOL_DEBUG := true; InvalidIndex := -1 |}.
Definition release_build : Pre := {| ORYOL_DEBUG := false; InvalidIndex := -1 |}.

(** A renderer with a device, and the factory after [Setup] on it. *)
Definition the_renderer : renderer := {| renderer_d3d11Device := 64 |}.
Definition ptrs : gfxPointers := {| gfxPointers_renderer := Some the_renderer |}.
Definition factory : d3d11ShaderFactory.t :=
  {| d3d11ShaderFactory.d3d11Device := 64;
     d3d11ShaderFactory.isValid := true;
     d3d11ShaderFactory.pointers := ptrs |}.

(** The scenario of the specification: one program variant with vertex
    and fragment bytecode, a uniform block at slot 3 of 20 bytes and a
    texture-only block. *)
Definition program0 : ShaderSetup.programEntry :=
  {| ShaderSetup.mask := 1;
     ShaderSetup.vsByteCode := fun _ => (1000, 256);
     ShaderSetup.fsByteCode := fun _ => (2000, 128) |}.
Definition block0 : ShaderSetup.uniformBlockEntry :=
  {| ShaderSetup.bindSlot := 3;
     ShaderSetup.bindStage := ShaderType.VertexShader;
     ShaderSetup.layout := {| UniformLayout.ByteSizeWithoutTextures := 20 |} |}.
Definition block1 : ShaderSetup.uniformBlockEntry :=
  {| ShaderSetup.bindSlot := -1;
     ShaderSetup.bindStage := ShaderType.FragmentShader;
     ShaderSetup.layout := {| UniformLayout.ByteSizeWithoutTextures := 0 |} |}.
Definition scenario : ShaderSetup.t :=
  {| ShaderSetup.programs := [program0];
     ShaderSetup.uniformBlocks := [block0; block1] |}.

(** The same uniform blocks and no program variant. *)
Definition no_programs : ShaderSetup.t :=
  {| ShaderSetup.programs := [];
     ShaderSetup.uniformBlocks := [block0; block1] |}.

(** A description the device rejects: empty vertex bytecode. *)
Definition rejected : ShaderSetup.t :=
  {| ShaderSetup.programs :=
       [{| ShaderSetup.mask := 1;
           ShaderSetup.vsByteCode := fun _ => (1000, 0);
           ShaderSetup.fsByteCode := fun _ => (2000, 128) |}];
     ShaderSetup.uniformBlocks := [block0] |}.

Definition start (setup : ShaderSetup.t) : world state :=
  {| dev := fresh; shd := shader.Empty setup |}.
(** The runs of [SetupResource] on these descriptions, from a fresh
    device and an empty resource. *)
Definition scenario_created
  : result ResourceState.Code * world state * list call :=
  Eval vm_compute in
    @d3d11ShaderFactory.SetupResource state device debug_build factory
      (start scenario).
Definition scenario_created_release
  : result ResourceState.Code * world state * list call :=
  Eval vm_compute in
    @d3d11ShaderFactory.SetupResource state device release_build factory
      (start scenario).
Definition rejected_run
  : result ResourceState.Code * world state * list call :=
  Eval vm_compute in
    @d3d11ShaderFactory.SetupResource state device debug_build factory
      (start rejected).
End SampleDevice.

(* ================================================================== *)
(** * Vocabulary of the statements *)

(** ** What a sequence of calls contains *)

Definition is_invalidate (c : call) : bool :=
  match c with call_invalidateShaderState => true | _ => false end.

Definition is_shader_create (c : call) : bool :=
  match c with
  | call_CreateVertexShader _ _ _ _ | call_CreatePixelShader _ _ _ _ => true
  | _ => false
  end.

Definition is_create (c : call) : bool :=
  match c with
  | call_CreateVertexShader _ _ _ _ | call_CreatePixelShader _ _ _ _
  | call_CreateBuffer _ _ _ => true
  | _ => false
  end.

Definition is_release (c : call) : bool :=
  match c with call_Release _ _ => true | _ => false end.

(** A creation call to which the device answered with a failure code. *)
Definition create_failed (c : call) : bool :=
  match c with
  | call_CreateVertexShader _ _ hr _ | call_CreatePixelShader _ _ hr _
  | call_CreateBuffer _ hr _ => negb (SUCCEEDED hr)
  | _ => false
  end.

(** The non-null objects the device created, in the order of the calls. *)
Definition created_object (c : call) : list (objkind * ptr) :=
  match c with
  | call_CreateVertexShader _ _ hr out =>
      if SUCCEEDED hr && nonnull out then [(VertexShaderObj, out)] else []
  | call_CreatePixelShader _ _ hr out =>
      if SUCCEEDED hr && nonnull out then [(PixelShaderObj, out)] else []
  | call_CreateBuffer _ hr out =>
      if SUCCEEDED hr && nonnull out then [(BufferObj, out)] else []
  | _ => []
  end.
Definition created_objects (t : list call) : list (objkind * ptr) :=
  flat_map created_object t.

(** The objects released, in the order of the calls. *)
Definition released_object (c : call) : list (objkind * ptr) :=
  match c with call_Release k obj => [(k, obj)] | _ => [] end.
Definition released_objects (t : list call) : list (objkind * ptr) :=
  flat_map released_object t.

(** The buffers asked of the device: byte width and the handle given. *)
Definition buffer_call (c : call) : list (Z * ptr) :=
  match c with call_CreateBuffer desc _ out => [(ByteWidth desc, out)] | _ => [] end.
Definition buffer_calls (t : list call) : list (Z * ptr) :=
  flat_map buffer_call t.

(** The shader stages asked of the device: bytecode, its size, the handle
    given. *)
Definition shader_call (c : call) : list (objkind * ptr * Z * ptr) :=
  match c with
  | call_CreateVertexShader p sz _ out => [(VertexShaderObj, p, sz, out)]
  | call_CreatePixelShader p sz _ out => [(PixelShaderObj, p, sz, out)]
  | _ => []
  end.
Definition shader_calls (t : list call) : list (objkind * ptr * Z * ptr) :=
  flat_map shader_call t.

(** [w] is the smallest multiple of [g] that is not below [n]. *)
Definition smallest_multiple_geq (g n w : Z) : Prop :=
  (g | w) /\ n <= w /\ forall m, (g | m) -> n <= m -> w <= m.

(** ** Well-formed descriptions, a factory that is set up *)

Section Vocabulary.
Context {D : Type} {device : ID3D11Device D} {pre : Pre}.

Definition bound (b : ShaderSetup.uniformBlockEntry) : bool :=
  negb (ShaderSetup.bindSlot b =? InvalidIndex).

Definition byteSize (b : ShaderSetup.uniformBlockEntry) : Z :=
  UniformLayout.ByteSizeWithoutTextures (ShaderSetup.layout b).

Definition programs_nonempty (s : ShaderSetup.t) : bool :=
  negb (Nat.eqb (length (ShaderSetup.programs s)) 0).

Definition bytecode_nonnull (s : ShaderSetup.t) : bool :=
  forallb (fun p =>
    nonnull (fst (ShaderSetup.vsByteCode p ShaderLang.HLSL5)) &&
    nonnull (fst (ShaderSetup.fsByteCode p ShaderLang.HLSL5)))
    (ShaderSetup.programs s).

(** A block with a real bind slot has a positive byte size (an [int32]). *)
Definition blocks_sized (s : ShaderSetup.t) : bool :=
  forallb (fun b => negb (bound b) || ((0 <? byteSize b) && (byteSize b <? 2 ^ 31)))
    (ShaderSetup.uniformBlocks s).

(** The invariant of the data model. *)
Definition well_formed (s : ShaderSetup.t) : bool :=
  programs_nonempty s && bytecode_nonnull s && blocks_sized s.

(** The state [Setup] leaves the factory in. *)
Definition factory_ready (this : d3d11ShaderFactory.t) : bool :=
  d3d11ShaderFactory.isValid this &&
  nonnull (d3d11ShaderFactory.d3d11Device this) &&
  match gfxPointers_renderer (d3d11ShaderFactory.pointers this) with
  | Some _ => true
  | None => false
  end.

(** What [SetupResource] and [DestroyResource] need of the factory to
    get past their first three statements. *)
Definition passes_entry (this : d3d11ShaderFactory.t) : Prop :=
  (ORYOL_DEBUG = true ->
     d3d11ShaderFactory.isValid this = true /\ nonnull (d3d11ShaderFactory.d3d11Device this) = true) /\
  gfxPointers_renderer (d3d11ShaderFactory.pointers this) <> None.

(** The buffer description [SetupResource] hands to [CreateBuffer] for a
    block. *)
Definition constant_buffer_desc (b : ShaderSetup.uniformBlockEntry)
  : D3D11_BUFFER_DESC :=
  {| ByteWidth := uint32_wrap (Memory.RoundUp (byteSize b) 16);
     Usage := D3D11_USAGE_DEFAULT;
     BindFlags := D3D11_BIND_CONSTANT_BUFFER;
     CPUAccessFlags := 0;
     MiscFlags := 0;
     StructureByteStride := 0 |}.

(** A creation call that succeeded and gave an object. *)
Definition creation_ok (r : HRESULT * ptr * D) : bool :=
  match r with (hr, out, _) => SUCCEEDED hr && nonnull out end.

(** The D3D11 contract: a creation call that succeeds gives an object. *)
Definition conforming : Prop :=
  (forall p sz l d, match CreateVertexShader p sz l d with
                    | (hr, out, _) => SUCCEEDED hr = true -> nonnull out = true end) /\
  (forall p sz l d, match CreatePixelShader p sz l d with
                    | (hr, out, _) => SUCCEEDED hr = true -> nonnull out = true end) /\
  (forall desc i d, match CreateBuffer desc i d with
                    | (hr, out, _) => SUCCEEDED hr = true -> nonnull out = true end).

(** The device, in whatever state, creates what the description asks. *)
Definition device_accepts (s : ShaderSetup.t) : Prop :=
  (forall p d, In p (ShaderSetup.programs s) ->
     creation_ok (CreateVertexShader
                    (fst (ShaderSetup.vsByteCode p ShaderLang.HLSL5))
                    (snd (ShaderSetup.vsByteCode p ShaderLang.HLSL5)) NULL d) = true /\
     creation_ok (CreatePixelShader
                    (fst (ShaderSetup.fsByteCode p ShaderLang.HLSL5))
                    (snd (ShaderSetup.fsByteCode p ShaderLang.HLSL5)) NULL d) = true) /\
  (forall b d, In b (ShaderSetup.uniformBlocks s) -> bound b = true ->
     creation_ok (CreateBuffer (constant_buffer_desc b) nullptr d) = true).

(** ** What a completed creation looks like *)

(** One program variant [p] became the entry [e], by the calls [t] that
    took the device from [d] to [d']. *)
Definition program_created (p : ShaderSetup.programEntry)
    (e : shader.programEntry) (d : D) (t : list call) (d' : D) : Prop :=
  exists hr1 hr2 d1,
    let vs := ShaderSetup.vsByteCode p ShaderLang.HLSL5 in
    let fs := ShaderSetup.fsByteCode p ShaderLang.HLSL5 in
    CreateVertexShader (fst vs) (snd vs) NULL d = (hr1, shader.vertexShader e, d1) /\
    CreatePixelShader (fst fs) (snd fs) NULL d1 = (hr2, shader.pixelShader e, d') /\
    SUCCEEDED hr1 = true /\ SUCCEEDED hr2 = true /\
    shader.mask e = ShaderSetup.mask p /\
    t = [call_CreateVertexShader (fst vs) (snd vs) hr1 (shader.vertexShader e);
         call_CreatePixelShader (fst fs) (snd fs) hr2 (shader.pixelShader e)] /\
    (ORYOL_DEBUG = true ->
       nonnull (shader.vertexShader e) = true /\
       nonnull (shader.pixelShader e) = true).

(** One uniform block [b] became the entry [e]. *)
Definition block_created (b : ShaderSetup.uniformBlockEntry)
    (e : shader.ubEntry) (d : D) (t : list call) (d' : D) : Prop :=
  shader.bindShaderStage e = ShaderSetup.bindStage b /\
  shader.bindSlotIndex e = ShaderSetup.bindSlot b /\
  ((bound b = false /\ shader.d3d11ConstantBuffer e = nullptr /\
    t = [] /\ d' = d) \/
   (bound b = true /\
    exists hr,
      CreateBuffer (constant_buffer_desc b) nullptr d
        = (hr, shader.d3d11ConstantBuffer e, d') /\
      SUCCEEDED hr = true /\
      t = [call_CreateBuffer (constant_buffer_desc b) hr
             (shader.d3d11ConstantBuffer e)] /\
      (ORYOL_DEBUG = true -> nonnull (shader.d3d11ConstantBuffer e) = true))).

(** A sequence of inputs became a sequence of entries, one after the
    other. *)
Inductive all_created {P E : Type}
    (R : P -> E -> D -> list call -> D -> Prop)
  : D -> list P -> list E -> list call -> D -> Prop :=
| all_created_nil d : all_created R d [] [] [] d
| all_created_cons p e ps es d t d1 ts d2 :
    R p e d t d1 -> all_created R d1 ps es ts d2 ->
    all_created R d (p :: ps) (e :: es) (t ++ ts) d2.

(** A run that stopped in a fault: it made creation calls only, and a
    failed one, if any, was the last call, stopped by an assertion. *)
Definition aborted_run (f : fault) (t : list call) : Prop :=
  forallb is_create t = true /\
  (existsb create_failed t = false \/
   (f = AssertFailed /\
    exists t0 c, t = t0 ++ [c] /\ create_failed c = true /\
                 existsb create_failed t0 = false)).

(** The release calls [DestroyResource] makes for a variant, for a
    uniform entry. *)
Definition program_releases (e : shader.programEntry) : list call :=
  (if nonnull (shader.vertexShader e)
   then [call_Release VertexShaderObj (shader.vertexShader e)] else []) ++
  (if nonnull (shader.pixelShader e)
   then [call_Release PixelShaderObj (shader.pixelShader e)] else []).
Definition buffer_releases (e : shader.ubEntry) : list call :=
  if nonnull (shader.d3d11ConstantBuffer e)
  then [call_Release BufferObj (shader.d3d11ConstantBuffer e)] else [].

(** The two creation calls [SetupResource] makes for a program variant
    [p] whose objects went into the entry [e], as [shader_calls] shows
    them. *)
Definition stage_calls (pe : ShaderSetup.programEntry * shader.programEntry)
  : list (objkind * ptr * Z * ptr) :=
  let vs := ShaderSetup.vsByteCode (fst pe) ShaderLang.HLSL5 in
  let fs := ShaderSetup.fsByteCode (fst pe) ShaderLang.HLSL5 in
  [(VertexShaderObj, fst vs, snd vs, shader.vertexShader (snd pe));
   (PixelShaderObj, fst fs, snd fs, shader.pixelShader (snd pe))].

(** The non-null device objects a resource holds, variants first. *)
Definition program_objects (e : shader.programEntry) : list (objkind * ptr) :=
  (if nonnull (shader.vertexShader e)
   then [(VertexShaderObj, shader.vertexShader e)] else []) ++
  (if nonnull (shader.pixelShader e)
   then [(PixelShaderObj, shader.pixelShader e)] else []).
Definition buffer_objects (e : shader.ubEntry) : list (objkind * ptr) :=
  if nonnull (shader.d3d11ConstantBuffer e)
  then [(BufferObj, shader.d3d11ConstantBuffer e)] else [].
Definition stored_objects (s : shader.t) : list (objkind * ptr) :=
  flat_map program_objects (shader.programEntries s) ++
  flat_map buffer_objects (shader.uniformBlockEntries s).

(** How a uniform entry [e] stands to the block [b] it was made for. *)
Definition entry_of_block (b : ShaderSetup.uniformBlockEntry)
    (e : shader.ubEntry) : Prop :=
  shader.bindShaderStage e = ShaderSetup.bindStage b /\
  shader.bindSlotIndex e = ShaderSetup.bindSlot b /\
  (ShaderSetup.bindSlot b = InvalidIndex ->
     shader.d3d11ConstantBuffer e = nullptr) /\
  (ShaderSetup.bindSlot b <> InvalidIndex ->
     shader.d3d11ConstantBuffer e <> nullptr).

(** How a [CreateBuffer] call, as [buffer_calls] shows it, stands to the
    block and the entry it was made for. *)
Definition buffer_of_block
    (be : ShaderSetup.uniformBlockEntry * shader.ubEntry) (c : Z * ptr) : Prop :=
  snd c = shader.d3d11ConstantBuffer (snd be) /\
  smallest_multiple_geq 16 (byteSize (fst be)) (fst c).


(** The device after a sequence of release calls. *)
Definition apply_call (d : D) (c : call) : D :=
  match c with call_Release k obj => Release k obj d | _ => d end.
Definition apply_calls (t : list call) (d : D) : D := fold_left apply_call t d.
End Vocabulary.

(** ** What the device is asked for *)

(** The buffer descriptions handed to [CreateBuffer], in the order of the
    calls. *)
Definition requested_buffer (c : call) : list D3D11_BUFFER_DESC :=
  match c with call_CreateBuffer desc _ _ => [desc] | _ => [] end.
Definition requested_buffers (t : list call) : list D3D11_BUFFER_DESC :=
  flat_map requested_buffer t.

(** A request for a constant buffer as [SetupResource] fills it in: default
    usage, bound as constant buffer, no CPU access, nothing else set, and a
    [UINT] byte width that is a multiple of 16. *)
Definition constant_buffer_request (desc : D3D11_BUFFER_DESC) : Prop :=
  Usage desc = D3D11_USAGE_DEFAULT /\
  BindFlags desc = D3D11_BIND_CONSTANT_BUFFER /\
  CPUAccessFlags desc = 0 /\
  MiscFlags desc = 0 /\
  StructureByteStride desc = 0 /\
  (16 | ByteWidth desc) /\
  0 <= ByteWidth desc < 2 ^ 32.

(** The bytecode pointers handed to [CreateVertexShader] and
    [CreatePixelShader], in the order of the calls. *)
Definition bytecode_given (c : call) : list ptr :=
  match c with
  | call_CreateVertexShader p _ _ _ | call_CreatePixelShader p _ _ _ => [p]
  | _ => []
  end.
Definition bytecodes_given (t : list call) : list ptr :=
  flat_map bytecode_given t.

(* ================================================================== *)
(** * Lists, integers *)

Lemma firstn_succ_nth {A} (l : list A) (k : nat) (dflt : A) :
  (k < length l)%nat -> firstn (S k) l = firstn k l ++ [nth k l dflt].
Proof.
  revert k; induction l as [|x l IH]; intros k Hk; simpl in Hk.
  - lia.
  - destruct k as [|k]; [reflexivity|].
    change (firstn (S (S k)) (x :: l)) with (x :: firstn (S k) l).
    rewrite (IH k) by lia. reflexivity.
Qed.

Lemma existsb_app_false {A} (f : A -> bool) (l1 l2 : list A) :
  existsb f l1 = false -> existsb f l2 = false -> existsb f (l1 ++ l2) = false.
Proof. intros H1 H2. rewrite existsb_app, H1, H2. reflexivity. Qed.

Lemma forallb_app_true {A} (f : A -> bool) (l1 l2 : list A) :
  forallb f l1 = true -> forallb f l2 = true -> forallb f (l1 ++ l2) = true.
Proof. intros H1 H2. rewrite forallb_app, H1, H2. reflexivity. Qed.

Lemma int32_wrap_small (z : Z) :
  - 2 ^ 31 <= z < 2 ^ 31 -> int32_wrap z = z.
Proof.
  intros H. unfold int32_wrap.
  rewrite Z.mod_small by lia. lia.
Qed.

Lemma int32_wrap_range (z : Z) : - 2 ^ 31 <= int32_wrap z < 2 ^ 31.
Proof.
  unfold int32_wrap.
  pose proof (Z.mod_pos_bound (z + 2 ^ 31) (2 ^ 32) ltac:(lia)). lia.
Qed.

Lemma nonnull_true (p : ptr) : nonnull p = true <-> p <> nullptr.
Proof.
  unfold nonnull. rewrite negb_true_iff, Z.eqb_neq. reflexivity.
Qed.

Lemma nonnull_false (p : ptr) : nonnull p = false <-> p = nullptr.
Proof.
  unfold nonnull. rewrite negb_false_iff, Z.eqb_eq. reflexivity.
Qed.

(** [Memory::RoundUp(n, 16)] is the smallest multiple of 16 at or above
    [n]. *)
Lemma RoundUp_16_smallest (n : Z) :
  smallest_multiple_geq 16 n (Memory.RoundUp n 16).
Proof.
  unfold smallest_multiple_geq, Memory.RoundUp.
  pose proof (Z.div_mod (n + (16 - 1)) 16 ltac:(lia)) as Hdm.
  pose proof (Z.mod_pos_bound (n + (16 - 1)) 16 ltac:(lia)) as Hb.
  split; [exists ((n + (16 - 1)) / 16); reflexivity|].
  split; [lia|].
  intros m [q ->] Hle.
  assert ((n + (16 - 1)) / 16 < q + 1); [|lia].
  apply Z.div_lt_upper_bound; lia.
Qed.

Lemma RoundUp_16_no_wrap (n : Z) :
  0 < n < 2 ^ 31 -> uint32_wrap (Memory.RoundUp n 16) = Memory.RoundUp n 16.
Proof.
  intros H. unfold uint32_wrap. apply Z.mod_small.
  unfold Memory.RoundUp.
  pose proof (Z.div_mod (n + (16 - 1)) 16 ltac:(lia)) as Hdm.
  pose proof (Z.mod_pos_bound (n + (16 - 1)) 16 ltac:(lia)) as Hb.
  lia.
Qed.

Example RoundUp_20 : Memory.RoundUp 20 16 = 32.
Proof. reflexivity. Qed.

(* ================================================================== *)
(** * Loops *)

Section Loops.
Context {D : Type} {device : ID3D11Device D} {pre : Pre}.

(** Invariant rule for [for_range]: [Inv k acc w t] holds after [k]
    iterations, with the calls [t] made so far; [Post] holds where an
    iteration stops in a fault. *)
Lemma for_range_invariant {A} (body : Z -> A -> M D A)
    (Inv : nat -> A -> world D -> list call -> Prop)
    (Post : fault -> world D -> list call -> Prop) (lo : Z) (n : nat) :
  (forall k acc w t, (k < n)%nat -> Inv k acc w t ->
     match body (lo + Z.of_nat k) acc w with
     | (Done acc', w', t') => Inv (S k) acc' w' (t ++ t')
     | (Crashed f, w', t') => Post f w' (t ++ t')
     end) ->
  forall acc w, Inv O acc w [] ->
    match for_range n lo body acc w with
    | (Done acc', w', t') => Inv n acc' w' t'
    | (Crashed f, w', t') => Post f w' t'
    end.
Proof.
  intros Hstep.
  assert (Hgen : forall m j acc w t, (j + m = n)%nat -> Inv j acc w t ->
    match for_range m (lo + Z.of_nat j) body acc w with
    | (Done acc', w', t') => Inv n acc' w' (t ++ t')
    | (Crashed f, w', t') => Post f w' (t ++ t')
    end).
  { induction m as [|m IH]; intros j acc w t Hj HI.
    - simpl. unfold ret. rewrite app_nil_r.
      replace n with j by lia. exact HI.
    - simpl. unfold bind.
      specialize (Hstep j acc w t ltac:(lia) HI).
      destruct (body (lo + Z.of_nat j) acc w) as [[[a|f] w1] t1]; [|exact Hstep].
      specialize (IH (S j) a w1 (t ++ t1) ltac:(lia) Hstep).
      replace (lo + Z.of_nat (S j)) with (lo + Z.of_nat j + 1) in IH by lia.
      destruct (for_range m (lo + Z.of_nat j + 1) body a w1) as [[[a'|f'] w2] t2];
        rewrite app_assoc; exact IH. }
  intros acc w HI.
  specialize (Hgen n O acc w [] eq_refl HI).
  simpl in Hgen. rewrite Z.add_0_r in Hgen. exact Hgen.
Qed.

Lemma all_created_snoc {P E} (R : P -> E -> D -> list call -> D -> Prop)
    d ps es t d1 p e t' d2 :
  all_created R d ps es t d1 -> R p e d1 t' d2 ->
  all_created R d (ps ++ [p]) (es ++ [e]) (t ++ t') d2.
Proof.
  intros H HR. induction H as [d|p0 e0 ps es d t0 d1 ts d3 H0 H IH].
  - simpl. rewrite <- (app_nil_r t'). econstructor; [exact HR|constructor].
  - simpl. rewrite <- app_assoc. econstructor; [exact H0|]. apply IH, HR.
Qed.

Lemma all_created_length {P E} (R : P -> E -> D -> list call -> D -> Prop)
    d ps es t d' :
  all_created R d ps es t d' -> length es = length ps.
Proof. induction 1; simpl; congruence. Qed.
End Loops.

(* ================================================================== *)
(** * Running the factory's methods *)

Unset Implicit Arguments.

(** One step of a run: split on the next condition or device answer. *)
Ltac run_step :=
  match goal with
  | |- context [if ?b then _ else _] => destruct b eqn:?
  | |- context [match CreateVertexShader ?a ?b ?c ?d with _ => _ end] =>
      destruct (CreateVertexShader a b c d) as [[? ?] ?] eqn:?
  | |- context [match CreatePixelShader ?a ?b ?c ?d with _ => _ end] =>
      destruct (CreatePixelShader a b c d) as [[? ?] ?] eqn:?
  | |- context [match CreateBuffer ?a ?b ?c with _ => _ end] =>
      destruct (CreateBuffer a b c) as [[? ?] ?] eqn:?
  end.

(** Unfold the monad and follow a loop-free body down every path. *)
Ltac run :=
  cbv beta iota delta [bind ret crash emit gets modify o_assert o_assert_dbg
    d3d11Device_CreateVertexShader d3d11Device_CreatePixelShader
    d3d11Device_CreateBuffer obj_Release renderer_invalidateShaderState];
  repeat (run_step;
    cbv beta iota delta [bind ret crash emit gets modify o_assert o_assert_dbg
    d3d11Device_CreateVertexShader d3d11Device_CreatePixelShader
    d3d11Device_CreateBuffer obj_Release renderer_invalidateShaderState]).

Ltac rewrite_succeeded :=
  repeat match goal with H : SUCCEEDED _ = _ |- _ => rewrite H end.

Ltac solve_failed_last :=
  solve [ (split; [reflexivity|]); simpl; rewrite_succeeded; split; reflexivity ].

(** A path that ended in a fault: either no creation call failed, or the
    failed one is the last call. *)
Ltac solve_aborted :=
  unfold aborted_run; simpl; split; [reflexivity|];
  first
    [ left; rewrite_succeeded; reflexivity
    | right; split; [reflexivity|];
      first [ eexists [], _; solve_failed_last
            | eexists [_], _; solve_failed_last ] ].

(** A path on which the device refused what it is assumed to create. *)
Ltac use_creation_ok :=
  match goal with
  | Hok : creation_ok ?x = true, Heq : ?x = (_, _, _) |- _ =>
      rewrite Heq in Hok; cbv beta iota delta [creation_ok] in Hok;
      apply andb_true_iff in Hok; destruct Hok; congruence
  end.

Section Factory.
Context {D : Type} {device : ID3D11Device D} {pre : Pre}.
Import d3d11ShaderFactory.

Lemma SetupResource_program_outcome this setup i (w : world D) :
  match SetupResource_program this setup ShaderLang.HLSL5 i tt w with
  | (Done _, w', t) =>
      exists e,
        program_created (ShaderSetup.programAt setup i) e (dev w) t (dev w') /\
        shd w' = shader.addShaders (shader.mask e) (shader.vertexShader e)
                   (shader.pixelShader e) (shd w)
  | (Crashed f, _, t) => aborted_run f t
  end.
Proof.
  unfold SetupResource_program, ShaderSetup.VertexShaderByteCode,
    ShaderSetup.FragmentShaderByteCode, ShaderSetup.Mask.
  destruct (ShaderSetup.vsByteCode (ShaderSetup.programAt setup i) ShaderLang.HLSL5)
    as [vsPtr vsSize] eqn:Evs.
  destruct (ShaderSetup.fsByteCode (ShaderSetup.programAt setup i) ShaderLang.HLSL5)
    as [psPtr psSize] eqn:Efs.
  run.
  all: try solve_aborted.
  all: simpl.
  all: refine (ex_intro _ (shader.Build_programEntry
                 (ShaderSetup.mask (ShaderSetup.programAt setup i)) p p0) _).
  all: (split; [|reflexivity]); unfold program_created; rewrite Evs, Efs; simpl.
  all: exists h, h0, d; repeat split; auto; congruence.
Qed.

Lemma SetupResource_uniformBlock_outcome this setup i cbDesc (w : world D) :
  MiscFlags cbDesc = 0 -> StructureByteStride cbDesc = 0 ->
  match SetupResource_uniformBlock this setup i cbDesc w with
  | (Done cbDesc', w', t) =>
      MiscFlags cbDesc' = 0 /\ StructureByteStride cbDesc' = 0 /\
      exists e,
        block_created (ShaderSetup.uniformBlockAt setup i) e (dev w) t (dev w') /\
        shd w' = shader.addUniformBlockEntry (shader.d3d11ConstantBuffer e)
                   (shader.bindShaderStage e) (shader.bindSlotIndex e) (shd w)
  | (Crashed f, _, t) => aborted_run f t
  end.
Proof.
  intros HM HS.
  unfold SetupResource_uniformBlock, ShaderSetup.UniformBlockSlot,
    ShaderSetup.UniformBlockLayout, ShaderSetup.UniformBlockShaderStage.
  run.
  all: try solve_aborted.
  all: simpl; (split; [assumption|]); (split; [assumption|]).
  1, 2: rewrite HM, HS in *;
    refine (ex_intro _ (shader.Build_ubEntry p _ _) _); (split; [|reflexivity]);
    unfold block_created, bound; simpl; (split; [reflexivity|]);
    (split; [reflexivity|]); right; (split; [assumption|]);
    exists h; repeat split; auto; congruence.
  refine (ex_intro _ (shader.Build_ubEntry nullptr _ _) _); (split; [|reflexivity]).
  unfold block_created, bound; simpl. repeat split. left. auto.
Qed.

Lemma program_created_calls p e d t d' :
  program_created p e d t d' ->
  forallb is_create t = true /\ existsb create_failed t = false /\
  forallb is_shader_create t = true.
Proof.
  intros (hr1 & hr2 & d1 & _ & _ & H1 & H2 & _ & -> & _).
  simpl. rewrite H1, H2. auto.
Qed.

Lemma block_created_calls b e d t d' :
  block_created b e d t d' ->
  forallb is_create t = true /\ existsb create_failed t = false /\
  forallb (fun c => negb (is_shader_create c)) t = true.
Proof.
  intros (_ & _ & [(_ & _ & -> & _)|(_ & hr & _ & H & -> & _)]).
  - auto.
  - simpl. rewrite H. auto.
Qed.

Lemma all_created_calls {P E} (R : P -> E -> D -> list call -> D -> Prop)
    (good : call -> bool) d ps es t d' :
  (forall p e d t d', R p e d t d' -> forallb good t = true) ->
  all_created R d ps es t d' -> forallb good t = true.
Proof.
  intros HR H. induction H; [reflexivity|].
  apply forallb_app_true; eauto.
Qed.

Lemma all_created_none_failed {P E} (R : P -> E -> D -> list call -> D -> Prop)
    d ps es t d' :
  (forall p e d t d', R p e d t d' -> existsb create_failed t = false) ->
  all_created R d ps es t d' -> existsb create_failed t = false.
Proof.
  intros HR H. induction H; [reflexivity|].
  apply existsb_app_false; eauto.
Qed.

Lemma aborted_run_app f t t' :
  forallb is_create t = true -> existsb create_failed t = false ->
  aborted_run f t' -> aborted_run f (t ++ t').
Proof.
  intros Hc Hf [Hc' H]. split; [apply forallb_app_true; assumption|].
  destruct H as [H|(-> & t0 & c & -> & Hfc & H0)].
  - left. apply existsb_app_false; assumption.
  - right. split; [reflexivity|]. exists (t ++ t0), c.
    rewrite app_assoc. repeat split; [assumption|].
    apply existsb_app_false; assumption.
Qed.

Lemma program_loop this setup (w : world D) :
  match for_loop 0 (ShaderSetup.NumPrograms setup)
          (SetupResource_program this setup ShaderLang.HLSL5) tt w with
  | (Done _, w', t) =>
      exists es,
        all_created program_created (dev w) (ShaderSetup.programs setup) es t (dev w') /\
        shd w' = {| shader.Setup := shader.Setup (shd w);
                    shader.programEntries := shader.programEntries (shd w) ++ es;
                    shader.uniformBlockEntries := shader.uniformBlockEntries (shd w) |}
  | (Crashed f, _, t) => aborted_run f t
  end.
Proof.
  unfold for_loop, ShaderSetup.NumPrograms.
  rewrite Z.sub_0_r, Nat2Z.id.
  set (n := length (ShaderSetup.programs setup)).
  pose proof (for_range_invariant
    (SetupResource_program this setup ShaderLang.HLSL5)
    (fun k _ w' t => exists es,
       all_created program_created (dev w)
         (firstn k (ShaderSetup.programs setup)) es t (dev w') /\
       shd w' = {| shader.Setup := shader.Setup (shd w);
                   shader.programEntries := shader.programEntries (shd w) ++ es;
                   shader.uniformBlockEntries := shader.uniformBlockEntries (shd w) |})
    (fun f _ t => aborted_run f t) 0 (n := n)) as H.
  cbv beta in H.
  match type of H with ?A -> _ => assert (Hstep : A) end.
  { clear H. intros k [] w1 t Hk (es & Hes & Hshd).
    pose proof (SetupResource_program_outcome this setup (0 + Z.of_nat k) w1) as Hb.
    destruct (SetupResource_program this setup ShaderLang.HLSL5 (0 + Z.of_nat k) tt w1)
      as [[[[]|f] w2] t2].
    - destruct Hb as (e & He & Hshd2).
      exists (es ++ [e]). split.
      + rewrite (firstn_succ_nth _ ShaderSetup.noProgram Hk).
        eapply all_created_snoc; [exact Hes|].
        unfold ShaderSetup.programAt in He.
        rewrite Z.add_0_l, Nat2Z.id in He. exact He.
      + rewrite Hshd2, Hshd. unfold shader.addShaders. simpl.
        rewrite <- app_assoc. destruct e; reflexivity.
    - apply aborted_run_app; [| |exact Hb].
      + eapply all_created_calls; [|exact Hes].
        intros; eapply program_created_calls; eauto.
      + eapply all_created_none_failed; [|exact Hes].
        intros; eapply program_created_calls; eauto. }
  specialize (H Hstep tt w).
  match type of H with ?A -> _ => assert (H0 : A) end.
  { exists []. split; [constructor|]. rewrite app_nil_r. destruct (shd w); reflexivity. }
  specialize (H H0).
  destruct (for_range n 0 (SetupResource_program this setup ShaderLang.HLSL5) tt w)
    as [[[[]|f] w2] t2]; [|exact H].
  destruct H as (es & Hes & Hshd). exists es. split; [|exact Hshd].
  unfold n in Hes. rewrite firstn_all in Hes. exact Hes.
Qed.

Lemma uniformBlock_loop this setup (w : world D) :
  match for_loop 0 (ShaderSetup.NumUniformBlocks setup)
          (SetupResource_uniformBlock this setup)
          Memory.Clear_D3D11_BUFFER_DESC w with
  | (Done _, w', t) =>
      exists es,
        all_created block_created (dev w) (ShaderSetup.uniformBlocks setup) es t (dev w') /\
        shd w' = {| shader.Setup := shader.Setup (shd w);
                    shader.programEntries := shader.programEntries (shd w);
                    shader.uniformBlockEntries :=
                      shader.uniformBlockEntries (shd w) ++ es |}
  | (Crashed f, _, t) => aborted_run f t
  end.
Proof.
  unfold for_loop, ShaderSetup.NumUniformBlocks.
  rewrite Z.sub_0_r, Nat2Z.id.
  set (n := length (ShaderSetup.uniformBlocks setup)).
  pose proof (for_range_invariant
    (SetupResource_uniformBlock this setup)
    (fun k cbDesc w' t =>
       MiscFlags cbDesc = 0 /\ StructureByteStride cbDesc = 0 /\
       exists es,
       all_created block_created (dev w)
         (firstn k (ShaderSetup.uniformBlocks setup)) es t (dev w') /\
       shd w' = {| shader.Setup := shader.Setup (shd w);
                   shader.programEntries := shader.programEntries (shd w);
                   shader.uniformBlockEntries :=
                     shader.uniformBlockEntries (shd w) ++ es |})
    (fun f _ t => aborted_run f t) 0 (n := n)) as H.
  cbv beta in H.
  match type of H with ?A -> _ => assert (Hstep : A) end.
  { clear H. intros k cbDesc w1 t Hk (HM & HS & es & Hes & Hshd).
    pose proof (SetupResource_uniformBlock_outcome this setup (0 + Z.of_nat k)
                  cbDesc w1 HM HS) as Hb.
    destruct (SetupResource_uniformBlock this setup (0 + Z.of_nat k) cbDesc w1)
      as [[[cbDesc'|f] w2] t2].
    - destruct Hb as (HM' & HS' & e & He & Hshd2).
      split; [exact HM'|]. split; [exact HS'|].
      exists (es ++ [e]). split.
      + rewrite (firstn_succ_nth _ ShaderSetup.noUniformBlock Hk).
        eapply all_created_snoc; [exact Hes|].
        unfold ShaderSetup.uniformBlockAt in He.
        rewrite Z.add_0_l, Nat2Z.id in He. exact He.
      + rewrite Hshd2, Hshd. unfold shader.addUniformBlockEntry. simpl.
        rewrite <- app_assoc. destruct e; reflexivity.
    - apply aborted_run_app; [| |exact Hb].
      + eapply all_created_calls; [|exact Hes].
        intros; eapply block_created_calls; eauto.
      + eapply all_created_none_failed; [|exact Hes].
        intros; eapply block_created_calls; eauto. }
  specialize (H Hstep Memory.Clear_D3D11_BUFFER_DESC w).
  match type of H with ?A -> _ => assert (H0 : A) end.
  { split; [reflexivity|]. split; [reflexivity|].
    exists []. split; [constructor|]. rewrite app_nil_r. destruct (shd w); reflexivity. }
  specialize (H H0).
  destruct (for_range n 0 (SetupResource_uniformBlock this setup)
              Memory.Clear_D3D11_BUFFER_DESC w)
    as [[[cbDesc'|f] w2] t2]; [|exact H].
  destruct H as (_ & _ & es & Hes & Hshd). exists es. split; [|exact Hshd].
  unfold n in Hes. rewrite firstn_all in Hes. exact Hes.
Qed.

Lemma SetupResource_outcome this (w : world D) :
  match SetupResource this w with
  | (Done r, w', t) =>
      r = ResourceState.Valid /\ passes_entry this /\
      exists es us tp tu d1,
        all_created program_created (dev w)
          (ShaderSetup.programs (shader.Setup (shd w))) es tp d1 /\
        all_created block_created d1
          (ShaderSetup.uniformBlocks (shader.Setup (shd w))) us tu (dev w') /\
        t = call_invalidateShaderState :: tp ++ tu /\
        shd w' = {| shader.Setup := shader.Setup (shd w);
                    shader.programEntries := shader.programEntries (shd w) ++ es;
                    shader.uniformBlockEntries :=
                      shader.uniformBlockEntries (shd w) ++ us |}
  | (Crashed f, _, t) =>
      (t = [] /\ ~ passes_entry this) \/
      exists t', t = call_invalidateShaderState :: t' /\ aborted_run f t'
  end.
Proof.
  unfold SetupResource.
  cbv beta iota delta [bind ret crash emit gets o_assert o_assert_dbg
                       renderer_invalidateShaderState].
  destruct ORYOL_DEBUG eqn:Edbg;
    [destruct (isValid this) eqn:Ev; [destruct (nonnull (d3d11Device this)) eqn:En|]|];
    simpl.
  all: try (left; split; [reflexivity|]; intros [Hd _];
            destruct (Hd Edbg); congruence).
  all: destruct (gfxPointers_renderer (pointers this)) as [r|] eqn:Er; simpl.
  all: try (left; split; [reflexivity|]; intros [_ Hrr]; congruence).
  all: pose proof (program_loop this (shader.Setup (shd w)) w) as Hp;
    destruct (for_loop 0 (ShaderSetup.NumPrograms (shader.Setup (shd w)))
                (SetupResource_program this (shader.Setup (shd w)) ShaderLang.HLSL5)
                tt w) as [[[[]|f] w3] tp]; simpl;
    [|right; eexists; split; [reflexivity|]; exact Hp].
  all: destruct Hp as (es & Hes & Hshd3).
  all: pose proof (uniformBlock_loop this (shader.Setup (shd w)) w3) as Hu;
    destruct (for_loop 0 (ShaderSetup.NumUniformBlocks (shader.Setup (shd w)))
                (SetupResource_uniformBlock this (shader.Setup (shd w)))
                Memory.Clear_D3D11_BUFFER_DESC w3) as [[[cb|f] w4] tu]; simpl.
  all: assert (Hpc : forallb is_create tp = true /\ existsb create_failed tp = false)
    by (split; [eapply all_created_calls|eapply all_created_none_failed];
        try exact Hes; intros; eapply program_created_calls; eauto).
  all: try (right; eexists; split; [reflexivity|];
            apply aborted_run_app; [apply Hpc|apply Hpc|exact Hu]).
  all: destruct Hu as (us & Hus & Hshd4).
  all: assert (Huc : forallb is_create tu = true /\ existsb create_failed tu = false)
    by (split; [eapply all_created_calls|eapply all_created_none_failed];
        try exact Hus; intros; eapply block_created_calls; eauto).
  all: assert (Hfinal : True ->
    ResourceState.Valid = ResourceState.Valid /\
    passes_entry this /\
    exists es0 us0 tp0 tu0 d1,
      all_created program_created (dev w)
        (ShaderSetup.programs (shader.Setup (shd w))) es0 tp0 d1 /\
      all_created block_created d1
        (ShaderSetup.uniformBlocks (shader.Setup (shd w))) us0 tu0 (dev w4) /\
      call_invalidateShaderState :: tp ++ tu ++ [] =
        call_invalidateShaderState :: tp0 ++ tu0 /\
      shd w4 =
        {| shader.Setup := shader.Setup (shd w);
           shader.programEntries := shader.programEntries (shd w) ++ es0;
           shader.uniformBlockEntries := shader.uniformBlockEntries (shd w) ++ us0 |})
    by (intros _; split; [reflexivity|]; split;
        [split; [intros; solve [congruence|split; assumption]|congruence]|];
        exists es, us, tp, tu; eexists; rewrite app_nil_r;
        repeat split; try eassumption;
        rewrite Hshd4, Hshd3; reflexivity).
  - destruct (shader.getNumUniformBlockEntries (shd w4) =?
              ShaderSetup.NumUniformBlocks (shader.Setup (shd w))); simpl.
    + apply Hfinal; exact I.
    + right. eexists; split; [reflexivity|]. rewrite app_nil_r.
      split; [apply forallb_app_true; [apply Hpc|apply Huc]|].
      left. apply existsb_app_false; [apply Hpc|apply Huc].
  - apply Hfinal; exact I.
Qed.

Lemma apply_calls_app t t' (d : D) :
  apply_calls (t ++ t') d = apply_calls t' (apply_calls t d).
Proof. unfold apply_calls. apply fold_left_app. Qed.

Lemma DestroyResource_program_outcome i (w : world D) :
  let e := nth (Z.to_nat i) (shader.programEntries (shd w)) shader.noProgram in
  DestroyResource_program i tt w =
    (Done tt, {| dev := apply_calls (program_releases e) (dev w); shd := shd w |},
     program_releases e).
Proof.
  unfold DestroyResource_program, program_releases, shader.getVertexShaderAt,
    shader.getPixelShaderAt.
  cbv beta iota zeta delta [bind ret gets obj_Release].
  destruct (nonnull (shader.vertexShader _)); simpl;
    destruct (nonnull (shader.pixelShader _)); simpl;
    destruct w; reflexivity.
Qed.

Lemma DestroyResource_constantBuffer_outcome i dummy (w : world D) :
  let e := nth (Z.to_nat i) (shader.uniformBlockEntries (shd w)) shader.noEntry in
  exists dummy',
  DestroyResource_constantBuffer i dummy w =
    (Done dummy', {| dev := apply_calls (buffer_releases e) (dev w); shd := shd w |},
     buffer_releases e).
Proof.
  unfold DestroyResource_constantBuffer, buffer_releases,
    shader.getUniformBlockEntryAt.
  cbv beta iota zeta delta [bind ret gets obj_Release].
  destruct (nonnull (shader.d3d11ConstantBuffer _)); simpl;
    destruct w; eexists; reflexivity.
Qed.

(** A loop whose body makes the calls [calls e] for the [i]-th element
    [e] of a list, and nothing else. *)
Lemma release_loop {A E} (body : Z -> A -> M D A) (l : list E) (dflt : E)
    (calls : E -> list call) (acc : A) (w : world D) :
  (forall i acc w1, shd w1 = shd w ->
     exists acc',
       body i acc w1 =
         (Done acc',
          {| dev := apply_calls (calls (nth (Z.to_nat i) l dflt)) (dev w1);
             shd := shd w1 |},
          calls (nth (Z.to_nat i) l dflt))) ->
  exists acc',
    for_loop 0 (Z.of_nat (length l)) body acc w =
      (Done acc',
       {| dev := apply_calls (flat_map calls l) (dev w); shd := shd w |},
       flat_map calls l).
Proof.
  intros Hbody. unfold for_loop. rewrite Z.sub_0_r, Nat2Z.id.
  pose proof (for_range_invariant body
    (fun k _ w' t =>
       t = flat_map calls (firstn k l) /\
       w' = {| dev := apply_calls t (dev w); shd := shd w |})
    (fun _ _ _ => False) 0 (n := length l)) as H.
  cbv beta in H.
  match type of H with ?A -> _ => assert (Hstep : A) end.
  { clear H. intros k a w1 t Hk (-> & ->).
    destruct (Hbody (0 + Z.of_nat k) a
                {| dev := apply_calls (flat_map calls (firstn k l)) (dev w);
                   shd := shd w |} eq_refl) as (a' & ->).
    rewrite Z.add_0_l, Nat2Z.id.
    rewrite (firstn_succ_nth _ dflt Hk), flat_map_app. cbn [flat_map dev shd].
    rewrite app_nil_r, apply_calls_app. auto. }
  specialize (H Hstep acc w).
  match type of H with ?A -> _ => assert (H0 : A) end.
  { simpl. split; [reflexivity|]. destruct w; reflexivity. }
  specialize (H H0).
  destruct (for_range (length l) 0 body acc w) as [[[a|f] w2] t2]; [|contradiction].
  destruct H as (-> & ->). rewrite firstn_all. eauto.
Qed.

Lemma DestroyResource_outcome this (w : world D) :
  passes_entry this ->
  let releases :=
    flat_map program_releases (shader.programEntries (shd w)) ++
    flat_map buffer_releases (shader.uniformBlockEntries (shd w)) in
  DestroyResource this w =
    (Done tt,
     {| dev := apply_calls releases (dev w); shd := shader.Clear (shd w) |},
     call_invalidateShaderState :: releases).
Proof.
  intros [Hdbg Hr] releases. unfold DestroyResource.
  cbv beta iota delta [bind ret crash emit gets modify o_assert o_assert_dbg
                       renderer_invalidateShaderState].
  destruct (gfxPointers_renderer (pointers this)) as [r|]; [|congruence].
  destruct ORYOL_DEBUG eqn:Edbg;
    [destruct (Hdbg eq_refl) as [Hv Hn]; rewrite Hv, Hn|]; simpl.
  all: destruct (release_loop DestroyResource_program (shader.programEntries (shd w))
              shader.noProgram program_releases tt w) as ([] & Hp);
    [intros i [] w1 Hw; exists tt; rewrite <- Hw;
     apply DestroyResource_program_outcome|].
  all: unfold shader.getNumPrograms; rewrite Hp; simpl.
  all: set (w1 := {| dev := apply_calls
                         (flat_map program_releases (shader.programEntries (shd w)))
                         (dev w); shd := shd w |}).
  all: destruct (release_loop DestroyResource_constantBuffer
              (shader.uniformBlockEntries (shd w))
              shader.noEntry buffer_releases
              (ShaderType.InvalidShaderType, 0) w1) as (dummy' & Hu);
    [intros i dummy w2 Hw; simpl in Hw; rewrite <- Hw;
     apply DestroyResource_constantBuffer_outcome|].
  all: unfold shader.getNumUniformBlockEntries; rewrite Hu; simpl.
  all: unfold releases; rewrite apply_calls_app, !app_nil_r; reflexivity.
Qed.

Lemma SetupResource_program_returns this setup i (w : world D) :
  nonnull (d3d11Device this) = true ->
  (let p := ShaderSetup.programAt setup i in
   nonnull (fst (ShaderSetup.vsByteCode p ShaderLang.HLSL5)) = true /\
   nonnull (fst (ShaderSetup.fsByteCode p ShaderLang.HLSL5)) = true /\
   forall d,
     creation_ok (CreateVertexShader
                    (fst (ShaderSetup.vsByteCode p ShaderLang.HLSL5))
                    (snd (ShaderSetup.vsByteCode p ShaderLang.HLSL5)) NULL d) = true /\
     creation_ok (CreatePixelShader
                    (fst (ShaderSetup.fsByteCode p ShaderLang.HLSL5))
                    (snd (ShaderSetup.fsByteCode p ShaderLang.HLSL5)) NULL d) = true) ->
  exists w' t,
    SetupResource_program this setup ShaderLang.HLSL5 i tt w = (Done tt, w', t).
Proof.
  intros Hdev (Hvs & Hfs & Hok).
  unfold SetupResource_program, ShaderSetup.VertexShaderByteCode,
    ShaderSetup.FragmentShaderByteCode, ShaderSetup.Mask.
  destruct (ShaderSetup.vsByteCode (ShaderSetup.programAt setup i) ShaderLang.HLSL5)
    as [vsPtr vsSize] eqn:Evs.
  destruct (ShaderSetup.fsByteCode (ShaderSetup.programAt setup i) ShaderLang.HLSL5)
    as [psPtr psSize] eqn:Efs.
  simpl in Hvs, Hfs, Hok.
  apply nonnull_true in Hdev. apply Z.eqb_neq in Hdev.
  run.
  all: try congruence.
  all: try (eexists; eexists; reflexivity).
  all: cbn [dev shd] in *.
  all: try (destruct (Hok (dev w)) as [Hok1 _]; use_creation_ok).
  all: destruct (Hok d) as [_ Hok2]; use_creation_ok.
Qed.

Lemma SetupResource_uniformBlock_returns this setup i cbDesc (w : world D) :
  nonnull (d3d11Device this) = true ->
  MiscFlags cbDesc = 0 -> StructureByteStride cbDesc = 0 ->
  (let b := ShaderSetup.uniformBlockAt setup i in
   bound b = true ->
   0 < byteSize b /\
   forall d, creation_ok (CreateBuffer (constant_buffer_desc b) nullptr d) = true) ->
  exists cbDesc' w' t,
    SetupResource_uniformBlock this setup i cbDesc w = (Done cbDesc', w', t).
Proof.
  intros Hdev HM HS Hb.
  unfold SetupResource_uniformBlock, ShaderSetup.UniformBlockSlot,
    ShaderSetup.UniformBlockLayout, ShaderSetup.UniformBlockShaderStage.
  cbv zeta in Hb. unfold constant_buffer_desc, bound, byteSize in Hb.
  apply nonnull_true in Hdev. apply Z.eqb_neq in Hdev.
  run.
  all: try congruence.
  all: try (do 3 eexists; reflexivity).
  all: destruct (Hb eq_refl) as [Hpos Hok].
  all: try (apply Z.ltb_ge in Heqb1; lia).
  all: rewrite HM, HS in *; specialize (Hok (dev w)); use_creation_ok.
Qed.

Lemma program_loop_returns this setup (w : world D) :
  nonnull (d3d11Device this) = true ->
  bytecode_nonnull setup = true -> device_accepts setup ->
  exists w' t,
    for_loop 0 (ShaderSetup.NumPrograms setup)
      (SetupResource_program this setup ShaderLang.HLSL5) tt w = (Done tt, w', t).
Proof.
  intros Hdev Hbc [Hacc _].
  unfold for_loop, ShaderSetup.NumPrograms. rewrite Z.sub_0_r, Nat2Z.id.
  pose proof (for_range_invariant
    (SetupResource_program this setup ShaderLang.HLSL5)
    (fun _ _ _ _ => True) (fun _ _ _ => False) 0
    (n := length (ShaderSetup.programs setup))) as H.
  cbv beta in H.
  match type of H with ?A -> _ => assert (Hstep : A) end.
  { clear H. intros k [] w1 t Hk _.
    destruct (SetupResource_program_returns this setup (0 + Z.of_nat k) w1 Hdev)
      as (w2 & t2 & ->); [|exact I].
    unfold ShaderSetup.programAt. rewrite Z.add_0_l, Nat2Z.id.
    assert (Hin : In (nth k (ShaderSetup.programs setup) ShaderSetup.noProgram)
                     (ShaderSetup.programs setup)) by (apply nth_In; exact Hk).
    unfold bytecode_nonnull in Hbc. rewrite forallb_forall in Hbc.
    apply Hbc in Hin as Hnn. apply andb_true_iff in Hnn. destruct Hnn.
    cbv zeta. repeat split; try assumption; apply Hacc; exact Hin. }
  specialize (H Hstep tt w I).
  destruct (for_range (length (ShaderSetup.programs setup)) 0
              (SetupResource_program this setup ShaderLang.HLSL5) tt w)
    as [[[[]|f] w2] t2]; [eauto|contradiction].
Qed.

Lemma uniformBlock_loop_returns this setup (w : world D) :
  nonnull (d3d11Device this) = true ->
  blocks_sized setup = true -> device_accepts setup ->
  exists cbDesc w' t,
    for_loop 0 (ShaderSetup.NumUniformBlocks setup)
      (SetupResource_uniformBlock this setup)
      Memory.Clear_D3D11_BUFFER_DESC w = (Done cbDesc, w', t).
Proof.
  intros Hdev Hsz [_ Hacc].
  unfold for_loop, ShaderSetup.NumUniformBlocks. rewrite Z.sub_0_r, Nat2Z.id.
  pose proof (for_range_invariant
    (SetupResource_uniformBlock this setup)
    (fun _ cbDesc _ _ => MiscFlags cbDesc = 0 /\ StructureByteStride cbDesc = 0)
    (fun _ _ _ => False) 0
    (n := length (ShaderSetup.uniformBlocks setup))) as H.
  cbv beta in H.
  match type of H with ?A -> _ => assert (Hstep : A) end.
  { clear H. intros k cbDesc w1 t Hk [HM HS].
    pose proof (SetupResource_uniformBlock_outcome this setup (0 + Z.of_nat k)
                  cbDesc w1 HM HS) as Hout.
    destruct (SetupResource_uniformBlock_returns this setup (0 + Z.of_nat k)
                cbDesc w1 Hdev HM HS) as (cbDesc' & w2 & t2 & Heq).
    - unfold ShaderSetup.uniformBlockAt. rewrite Z.add_0_l, Nat2Z.id.
      assert (Hin : In (nth k (ShaderSetup.uniformBlocks setup)
                          ShaderSetup.noUniformBlock)
                       (ShaderSetup.uniformBlocks setup)) by (apply nth_In; exact Hk).
      unfold blocks_sized in Hsz. rewrite forallb_forall in Hsz.
      apply Hsz in Hin as Hb. cbv zeta. intros Hbound. rewrite Hbound in Hb.
      simpl in Hb. apply andb_true_iff in Hb. destruct Hb as [Hpos _].
      apply Z.ltb_lt in Hpos. split; [exact Hpos|].
      intros d. apply Hacc; assumption.
    - rewrite Heq in Hout |- *. destruct Hout as (HM' & HS' & _). auto. }
  specialize (H Hstep Memory.Clear_D3D11_BUFFER_DESC w (conj eq_refl eq_refl)).
  destruct (for_range (length (ShaderSetup.uniformBlocks setup)) 0
              (SetupResource_uniformBlock this setup)
              Memory.Clear_D3D11_BUFFER_DESC w)
    as [[[cb|f] w2] t2]; [eauto|contradiction].
Qed.

Lemma factory_ready_passes_entry this :
  factory_ready this = true -> passes_entry this.
Proof.
  unfold factory_ready, passes_entry. intros H.
  apply andb_true_iff in H. destruct H as [H Hr].
  apply andb_true_iff in H. destruct H as [Hv Hn].
  split; [auto|].
  destruct (gfxPointers_renderer (pointers this)); congruence.
Qed.

(** With a factory that is set up, non-null bytecode, sized blocks and a
    device that creates what is asked, [SetupResource] on a resource
    without uniform entries returns. *)
Lemma SetupResource_returns this (w : world D) :
  factory_ready this = true ->
  bytecode_nonnull (shader.Setup (shd w)) = true ->
  blocks_sized (shader.Setup (shd w)) = true ->
  device_accepts (shader.Setup (shd w)) ->
  shader.uniformBlockEntries (shd w) = [] ->
  exists w' t, SetupResource this w = (Done ResourceState.Valid, w', t).
Proof.
  intros Hready Hbc Hsz Hacc Hempty.
  unfold factory_ready in Hready.
  apply andb_true_iff in Hready. destruct Hready as [Hready Hr].
  apply andb_true_iff in Hready. destruct Hready as [Hv Hn].
  unfold SetupResource.
  cbv beta iota delta [bind ret crash emit gets o_assert o_assert_dbg
                       renderer_invalidateShaderState].
  rewrite Hv, Hn.
  destruct (gfxPointers_renderer (pointers this)) as [r|]; [|discriminate].
  pose proof (program_loop this (shader.Setup (shd w)) w) as Hp.
  destruct (program_loop_returns this (shader.Setup (shd w)) w Hn Hbc Hacc)
    as (w3 & tp & Ep).
  rewrite Ep in Hp. destruct Hp as (es & _ & Hshd3).
  pose proof (uniformBlock_loop this (shader.Setup (shd w)) w3) as Hu.
  destruct (uniformBlock_loop_returns this (shader.Setup (shd w)) w3 Hn Hsz Hacc)
    as (cb & w4 & tu & Eu).
  rewrite Eu in Hu. destruct Hu as (us & Hus & Hshd4).
  assert (Hlen : (shader.getNumUniformBlockEntries (shd w4) =?
                  ShaderSetup.NumUniformBlocks (shader.Setup (shd w))) = true).
  { apply Z.eqb_eq. unfold shader.getNumUniformBlockEntries,
      ShaderSetup.NumUniformBlocks.
    rewrite Hshd4, Hshd3. simpl. rewrite Hempty. simpl.
    f_equal. eapply all_created_length; exact Hus. }
  destruct ORYOL_DEBUG; simpl; rewrite Ep; simpl; rewrite Eu; simpl;
    rewrite ?Hlen; simpl; eauto.
Qed.
End Factory.

(* ================================================================== *)
(** * What a run of [SetupResource] leaves behind *)

Section Created.
Context {D : Type} {device : ID3D11Device D} {pre : Pre}.
Import d3d11ShaderFactory.

Lemma released_program_releases es :
  released_objects (flat_map program_releases es) = flat_map program_objects es.
Proof.
  unfold released_objects. induction es as [|e es IH]; [reflexivity|].
  simpl. rewrite flat_map_app, IH. f_equal.
  unfold program_releases, program_objects.
  destruct (nonnull (shader.vertexShader e)), (nonnull (shader.pixelShader e));
    reflexivity.
Qed.

Lemma released_buffer_releases us :
  released_objects (flat_map buffer_releases us) = flat_map buffer_objects us.
Proof.
  unfold released_objects. induction us as [|e us IH]; [reflexivity|].
  simpl. rewrite flat_map_app, IH. f_equal.
  unfold buffer_releases, buffer_objects.
  destruct (nonnull (shader.d3d11ConstantBuffer e)); reflexivity.
Qed.

Lemma programs_created_facts d ps es t d' :
  all_created program_created d ps es t d' ->
  map shader.mask es = map ShaderSetup.mask ps /\
  shader_calls t = flat_map stage_calls (combine ps es) /\
  buffer_calls t = [] /\
  created_objects t = flat_map program_objects es.
Proof.
  induction 1 as [d|p e ps es d t d1 ts d2 Hpe H IH].
  - simpl. auto.
  - destruct IH as (IH1 & IH2 & IH3 & IH4).
    destruct Hpe as (hr1 & hr2 & d0 & _ & _ & H1 & H2 & Hm & -> & _).
    unfold shader_calls, buffer_calls, created_objects in *.
    simpl. rewrite H1, H2, Hm, IH1, IH2, IH3, IH4. simpl.
    repeat split; try reflexivity.
    unfold program_objects.
    destruct (nonnull (shader.vertexShader e)), (nonnull (shader.pixelShader e));
      reflexivity.
Qed.

Lemma blocks_created_facts d bs us t d' :
  all_created block_created d bs us t d' ->
  map (fun e => (shader.bindShaderStage e, shader.bindSlotIndex e)) us =
    map (fun b => (ShaderSetup.bindStage b, ShaderSetup.bindSlot b)) bs /\
  shader_calls t = [] /\
  buffer_calls t =
    map (fun be => (ByteWidth (constant_buffer_desc (fst be)),
                    shader.d3d11ConstantBuffer (snd be)))
        (filter (fun be => bound (fst be)) (combine bs us)) /\
  created_objects t = flat_map buffer_objects us /\
  Forall2 (fun b e => bound b = false -> shader.d3d11ConstantBuffer e = nullptr) bs us.
Proof.
  induction 1 as [d|b e bs us d t d1 ts d2 Hbe H IH].
  - simpl. auto.
  - destruct IH as (IH1 & IH2 & IH3 & IH4 & IH5).
    destruct Hbe as (Hst & Hsl & [(Hb & Hn & -> & ->)|(Hb & hr & Hc & Hok & -> & Hdbg)]).
    + unfold shader_calls, buffer_calls, created_objects in *.
      simpl. rewrite Hb, Hst, Hsl, IH1, IH2, IH3, IH4.
      unfold buffer_objects. rewrite Hn. simpl.
      split; [reflexivity|]. split; [reflexivity|]. split; [reflexivity|].
      split; [reflexivity|]. constructor; auto.
    + unfold shader_calls, buffer_calls, created_objects in *.
      simpl. rewrite Hb, Hst, Hsl, Hok, IH1, IH2, IH3, IH4. simpl.
      split; [reflexivity|]. split; [reflexivity|]. split; [reflexivity|].
      split.
      * unfold buffer_objects.
        destruct (nonnull (shader.d3d11ConstantBuffer e)); reflexivity.
      * constructor; [congruence|assumption].
Qed.

(** A bound block's buffer is non-null where the debug assertion checked
    it or the device keeps the D3D11 contract. *)
Lemma blocks_created_nonnull d bs us t d' :
  ORYOL_DEBUG = true \/ conforming ->
  all_created block_created d bs us t d' ->
  Forall2 (fun b e => bound b = true ->
                      nonnull (shader.d3d11ConstantBuffer e) = true) bs us.
Proof.
  intros Hd. induction 1 as [d|b e bs us d t d1 ts d2 Hbe H IH]; constructor; auto.
  intros Hb.
  destruct Hbe as (_ & _ & [(Hb' & _)|(_ & hr & Hc & Hok & _ & Hdbg)]); [congruence|].
  destruct Hd as [Hd|(_ & _ & Hconf)]; [auto|].
  specialize (Hconf (constant_buffer_desc b) nullptr d).
  rewrite Hc in Hconf. auto.
Qed.

Lemma bound_true b : bound b = true <-> ShaderSetup.bindSlot b <> InvalidIndex.
Proof. unfold bound. rewrite negb_true_iff, Z.eqb_neq. reflexivity. Qed.

Lemma bound_false b : bound b = false <-> ShaderSetup.bindSlot b = InvalidIndex.
Proof. unfold bound. rewrite negb_false_iff, Z.eqb_eq. reflexivity. Qed.

Lemma blocks_created_entries d bs us t d' :
  ORYOL_DEBUG = true \/ conforming ->
  all_created block_created d bs us t d' ->
  Forall2 entry_of_block bs us.
Proof.
  intros Hd H. pose proof (blocks_created_nonnull _ _ _ _ _ Hd H) as Hnn.
  induction H as [d|b e bs us d t d1 ts d2 Hbe H IH]; [constructor|].
  inversion Hnn as [|? ? ? ? Hnn1 Hnn2]; subst.
  constructor; [|auto].
  destruct Hbe as (Hst & Hsl & Hcase).
  split; [exact Hst|]. split; [exact Hsl|]. split.
  - intros Hslot. apply bound_false in Hslot.
    destruct Hcase as [(_ & Hn & _)|(Hb & _)]; congruence.
  - intros Hslot. apply bound_true in Hslot.
    apply nonnull_true. auto.
Qed.

Lemma blocks_created_buffers d bs us t d' :
  forallb (fun b => negb (bound b) || ((0 <? byteSize b) && (byteSize b <? 2 ^ 31)))
    bs = true ->
  all_created block_created d bs us t d' ->
  Forall2 buffer_of_block
    (filter (fun be => bound (fst be)) (combine bs us)) (buffer_calls t).
Proof.
  intros Hsz H.
  induction H as [d|b e bs us d t d1 ts d2 Hbe H IH]; [constructor|].
  simpl in Hsz. apply andb_true_iff in Hsz. destruct Hsz as [Hb Hsz].
  specialize (IH Hsz).
  unfold buffer_calls in *. rewrite flat_map_app. simpl.
  destruct Hbe as (_ & _ & [(Hu & _ & -> & _)|(Hbd & hr & _ & _ & -> & _)]).
  - rewrite Hu. exact IH.
  - rewrite Hbd in Hb |- *. simpl in Hb |- *.
    apply andb_true_iff in Hb. destruct Hb as [Hpos Hlt].
    apply Z.ltb_lt in Hpos. apply Z.ltb_lt in Hlt.
    constructor; [|exact IH].
    split; [reflexivity|]. simpl.
    rewrite RoundUp_16_no_wrap by lia. apply RoundUp_16_smallest.
Qed.

(** What a resource looks like once [SetupResource] has returned on an
    empty one. *)
Lemma SetupResource_Done this setup (w : world D) r w' t :
  shd w = shader.Empty setup ->
  SetupResource this w = (Done r, w', t) ->
  r = ResourceState.Valid /\ passes_entry this /\
  exists tp tu d1,
    all_created program_created (dev w) (ShaderSetup.programs setup)
      (shader.programEntries (shd w')) tp d1 /\
    all_created block_created d1 (ShaderSetup.uniformBlocks setup)
      (shader.uniformBlockEntries (shd w')) tu (dev w') /\
    t = call_invalidateShaderState :: tp ++ tu /\
    shader.Setup (shd w') = setup.
Proof.
  intros Hw Hrun. pose proof (SetupResource_outcome this w) as H.
  rewrite Hrun in H. rewrite Hw in H. simpl in H.
  destruct H as (-> & Hpass & es & us & tp & tu & d1 & Hes & Hus & -> & ->).
  simpl. split; [reflexivity|]. split; [exact Hpass|].
  exists tp, tu, d1. auto.
Qed.

(** ** Claims *)

(** C1. For a program description with P program variants and U uniform
    blocks, the resource [SetupResource] returns on holds P variant
    entries and U uniform entries, in the order of the description: the
    variants carry the masks of the programs and the two stage objects
    the device gave for that program's bytecode, the uniform entries the
    stage and slot of the blocks. And [SetupResource] does return
    [Valid] when the factory is set up, the description is well formed
    and the device creates what it is asked. *)
Theorem SetupResource_entries this setup (w : world D) :
  shd w = shader.Empty setup ->
  (forall r w' t, SetupResource this w = (Done r, w', t) ->
     length (shader.programEntries (shd w')) = length (ShaderSetup.programs setup) /\
     length (shader.uniformBlockEntries (shd w')) =
       length (ShaderSetup.uniformBlocks setup) /\
     map shader.mask (shader.programEntries (shd w')) =
       map ShaderSetup.mask (ShaderSetup.programs setup) /\
     shader_calls t =
       flat_map stage_calls
         (combine (ShaderSetup.programs setup) (shader.programEntries (shd w'))) /\
     map (fun e => (shader.bindShaderStage e, shader.bindSlotIndex e))
         (shader.uniformBlockEntries (shd w')) =
       map (fun b => (ShaderSetup.bindStage b, ShaderSetup.bindSlot b))
         (ShaderSetup.uniformBlocks setup)) /\
  (factory_ready this = true -> well_formed setup = true ->
   device_accepts setup ->
   exists w' t, SetupResource this w = (Done ResourceState.Valid, w', t)).
Proof.
  intros Hw. split.
  - intros r w' t Hrun.
    destruct (SetupResource_Done this setup w r w' t Hw Hrun)
      as (_ & _ & tp & tu & d1 & Hes & Hus & -> & _).
    destruct (programs_created_facts _ _ _ _ _ Hes) as (Hm & Hsc & _ & _).
    destruct (blocks_created_facts _ _ _ _ _ Hus) as (Hf & Hsc' & _).
    split; [eapply all_created_length; exact Hes|].
    split; [eapply all_created_length; exact Hus|].
    split; [exact Hm|]. split; [|exact Hf].
    unfold shader_calls in *. simpl. rewrite flat_map_app, Hsc, Hsc'.
    apply app_nil_r.
  - intros Hready Hwf Hacc. unfold well_formed in Hwf.
    apply andb_true_iff in Hwf. destruct Hwf as [Hwf Hsz].
    apply andb_true_iff in Hwf. destruct Hwf as [_ Hbc].
    apply SetupResource_returns; rewrite ?Hw; auto.
Qed.

(** C2. In the resource [SetupResource] returns on, the entry of a
    uniform block carries the block's shader stage and bind slot; its
    buffer is null if the bind slot is [InvalidIndex] and non-null
    otherwise; and the [CreateBuffer] calls made are those for the blocks
    with a bind slot, in order, none for the others, each asking for the
    smallest multiple of 16 bytes that holds the block's byte size and
    giving the buffer stored in the entry. *)
Theorem SetupResource_uniform_buffers this setup (w : world D) r w' t :
  shd w = shader.Empty setup ->
  blocks_sized setup = true ->
  ORYOL_DEBUG = true \/ conforming ->
  SetupResource this w = (Done r, w', t) ->
  Forall2 entry_of_block
    (ShaderSetup.uniformBlocks setup) (shader.uniformBlockEntries (shd w')) /\
  Forall2 buffer_of_block
    (filter (fun be => bound (fst be))
       (combine (ShaderSetup.uniformBlocks setup)
                (shader.uniformBlockEntries (shd w'))))
    (buffer_calls t).
Proof.
  intros Hw Hsz Hd Hrun.
  destruct (SetupResource_Done this setup w r w' t Hw Hrun)
    as (_ & _ & tp & tu & d1 & Hes & Hus & -> & _).
  split; [eapply blocks_created_entries; eauto|].
  destruct (programs_created_facts _ _ _ _ _ Hes) as (_ & _ & Hbc & _).
  unfold buffer_calls in *. simpl. rewrite flat_map_app, Hbc. simpl.
  eapply blocks_created_buffers; eauto.
Qed.

(** C3. [DestroyResource] on the resource [SetupResource] returned on
    returns, leaves the resource empty, and its release calls are, one
    for one and in order, the non-null objects the device created: the
    non-null objects the resource held. *)
Theorem create_then_destroy this setup (w : world D) r w1 t1 :
  shd w = shader.Empty setup ->
  SetupResource this w = (Done r, w1, t1) ->
  exists w2 t2,
    DestroyResource this w1 = (Done tt, w2, t2) /\
    shd w2 = shader.Empty setup /\
    released_objects t2 = created_objects t1 /\
    released_objects t2 = stored_objects (shd w1).
Proof.
  intros Hw Hrun.
  destruct (SetupResource_Done this setup w r w1 t1 Hw Hrun)
    as (_ & Hpass & tp & tu & d1 & Hes & Hus & -> & Hsetup).
  rewrite (DestroyResource_outcome this w1 Hpass).
  do 2 eexists. split; [reflexivity|].
  destruct (programs_created_facts _ _ _ _ _ Hes) as (_ & _ & _ & Hpo).
  destruct (blocks_created_facts _ _ _ _ _ Hus) as (_ & _ & _ & Hbo & _).
  assert (Hrel : released_objects
            (call_invalidateShaderState ::
             flat_map program_releases (shader.programEntries (shd w1)) ++
             flat_map buffer_releases (shader.uniformBlockEntries (shd w1)))
          = stored_objects (shd w1)).
  { unfold released_objects, stored_objects. simpl. rewrite flat_map_app.
    fold (released_objects (flat_map program_releases (shader.programEntries (shd w1)))).
    fold (released_objects (flat_map buffer_releases (shader.uniformBlockEntries (shd w1)))).
    rewrite released_program_releases, released_buffer_releases. reflexivity. }
  split; [simpl; unfold shader.Clear, shader.Empty; rewrite Hsetup; reflexivity|].
  split; [|exact Hrel].
  rewrite Hrel. unfold stored_objects, created_objects in *. simpl.
  rewrite flat_map_app, Hpo, Hbo. reflexivity.
Qed.
End Created.

(* ================================================================== *)
(** * Faults, ordering of the calls, set-up and tear-down *)

Section Claims.
Context {D : Type} {device : ID3D11Device D} {pre : Pre}.
Import d3d11ShaderFactory.

Lemma creates_no_invalidate t :
  forallb is_create t = true -> existsb is_invalidate t = false.
Proof.
  induction t as [|c t IH]; [reflexivity|]. simpl. intros H.
  apply andb_true_iff in H. destruct H as [Hc Ht].
  rewrite (IH Ht). destruct c; simpl in *; congruence.
Qed.

Lemma releases_no_invalidate t :
  forallb is_release t = true -> existsb is_invalidate t = false.
Proof.
  induction t as [|c t IH]; [reflexivity|]. simpl. intros H.
  apply andb_true_iff in H. destruct H as [Hc Ht].
  rewrite (IH Ht). destruct c; simpl in *; congruence.
Qed.

Lemma releases_are_releases :
  forall es us,
    forallb is_release
      (flat_map program_releases es ++ flat_map buffer_releases us) = true.
Proof.
  intros es us. apply forallb_app_true.
  - induction es as [|e es IH]; [reflexivity|]. simpl.
    apply forallb_app_true; [|exact IH]. unfold program_releases.
    destruct (nonnull (shader.vertexShader e)), (nonnull (shader.pixelShader e));
      reflexivity.
  - induction us as [|e us IH]; [reflexivity|]. simpl.
    apply forallb_app_true; [|exact IH]. unfold buffer_releases.
    destruct (nonnull (shader.d3d11ConstantBuffer e)); reflexivity.
Qed.



(** C5. [SetupResource] gives no error code: where it returns, it
    returns [Valid]; and a creation call the device answers with a
    failure code is the last call made, the run ending in the fault of a
    failed assertion. *)
Theorem SetupResource_no_error_result this (w : world D) r w' t :
  SetupResource this w = (r, w', t) ->
  (r = Done ResourceState.Valid \/ exists f, r = Crashed f) /\
  (existsb create_failed t = true ->
   r = Crashed AssertFailed /\
   exists t0 c, t = t0 ++ [c] /\ create_failed c = true /\
                existsb create_failed t0 = false).
Proof.
  intros Hrun. pose proof (SetupResource_outcome this w) as H.
  rewrite Hrun in H. destruct r as [c|f].
  - destruct H as (-> & _ & es & us & tp & tu & d1 & Hes & Hus & -> & _).
    split; [left; reflexivity|]. intros Hfail. exfalso.
    simpl in Hfail. rewrite existsb_app_false in Hfail; [discriminate| |].
    + eapply all_created_none_failed; [|exact Hes].
      intros; eapply program_created_calls; eauto.
    + eapply all_created_none_failed; [|exact Hus].
      intros; eapply block_created_calls; eauto.
  - split; [right; eauto|]. intros Hfail.
    destruct H as [[-> _]|(t' & -> & _ & [Hnone|(-> & t0 & c & -> & Hc & H0)])].
    + discriminate.
    + simpl in Hfail. congruence.
    + split; [reflexivity|].
      exists (call_invalidateShaderState :: t0), c. auto.
Qed.

(** C6. A second [Setup] with no [Discard] in between: in a debug build
    it stops in the fault of a failed assertion, having changed nothing;
    in a build without the debug assertions it goes through and sets the
    factory up again. After a [Discard], [Setup] goes through in either
    build. *)
Theorem Setup_twice this ptrs1 ptrs2 (w w1 : world D) this1 t1 :
  Setup this ptrs1 w = (Done this1, w1, t1) ->
  (ORYOL_DEBUG = true -> Setup this1 ptrs2 w1 = (Crashed AssertFailed, w1, [])) /\
  (forall r2, gfxPointers_renderer ptrs2 = Some r2 ->
     let again := {| d3d11Device := renderer_d3d11Device r2; isValid := true;
                     pointers := ptrs2 |} in
     (ORYOL_DEBUG = false -> Setup this1 ptrs2 w1 = (Done again, w1, [])) /\
     (exists this2, Discard this1 w1 = (Done this2, w1, []) /\
                    Setup this2 ptrs2 w1 = (Done again, w1, []))).
Proof.
  unfold Setup, Discard.
  cbv beta iota delta [bind ret crash o_assert o_assert_dbg].
  intros H1.
  assert (Hv : isValid this1 = true).
  { destruct ORYOL_DEBUG; [destruct (isValid this)|]; simpl in H1;
      try discriminate;
      destruct (gfxPointers_renderer ptrs1); simpl in H1; try discriminate;
      inversion H1; reflexivity. }
  rewrite Hv. simpl. split; [intros ->; reflexivity|].
  intros r2 Hr2. rewrite Hr2. simpl.
  split; [intros ->; reflexivity|].
  eexists. destruct ORYOL_DEBUG; simpl; split; reflexivity.
Qed.

(** C7. On a factory that is set up, [SetupResource] and
    [DestroyResource] call [invalidateShaderState] first and once: all
    that follows are creation calls, for the one, and release calls, for
    the other. *)
Theorem invalidate_first this :
  factory_ready this = true ->
  (forall (w : world D) r w' t, SetupResource this w = (r, w', t) ->
     exists rest, t = call_invalidateShaderState :: rest /\
                  existsb is_invalidate rest = false /\
                  forallb is_create rest = true) /\
  (forall (w : world D) r w' t, DestroyResource this w = (r, w', t) ->
     exists rest, t = call_invalidateShaderState :: rest /\
                  existsb is_invalidate rest = false /\
                  forallb is_release rest = true).
Proof.
  intros Hready. apply factory_ready_passes_entry in Hready. split.
  - intros w r w' t Hrun. pose proof (SetupResource_outcome this w) as H.
    rewrite Hrun in H. destruct r as [c|f].
    + destruct H as (_ & _ & es & us & tp & tu & d1 & Hes & Hus & -> & _).
      assert (Hc : forallb is_create (tp ++ tu) = true).
      { apply forallb_app_true; (eapply all_created_calls; [|eassumption]);
          intros.
        - eapply program_created_calls; eauto.
        - eapply block_created_calls; eauto. }
      eexists. split; [reflexivity|]. split; [apply creates_no_invalidate|]; exact Hc.
    + destruct H as [[_ Hn]|(t' & -> & Hc & _)]; [contradiction|].
      eexists. split; [reflexivity|]. split; [apply creates_no_invalidate|]; exact Hc.
  - intros w r w' t Hrun. rewrite (DestroyResource_outcome this w Hready) in Hrun.
    inversion Hrun; subst. eexists. split; [reflexivity|].
    split; [apply releases_no_invalidate|]; apply releases_are_releases.
Qed.

(** C8. [DestroyResource] on a resource without variant entries and
    without uniform entries makes no release call, only the call to
    [invalidateShaderState], and leaves the resource and the device as
    they were. *)
Theorem DestroyResource_empty this (w : world D) :
  factory_ready this = true ->
  shader.programEntries (shd w) = [] ->
  shader.uniformBlockEntries (shd w) = [] ->
  DestroyResource this w = (Done tt, w, [call_invalidateShaderState]).
Proof.
  intros Hready Hp Hu. apply factory_ready_passes_entry in Hready.
  rewrite (DestroyResource_outcome this w Hready), Hp, Hu. simpl.
  destruct w as [d s]. destruct s as [setup ps us]. simpl in *. subst.
  reflexivity.
Qed.

(** [DestroyResource] on a second copy of a resource it has already been
    run on releases the same objects a second time. *)
Lemma DestroyResource_copy_released_twice this (w : world D) r w1 t1 :
  factory_ready this = true ->
  DestroyResource this w = (r, w1, t1) ->
  exists w2 t2,
    DestroyResource this {| dev := dev w1; shd := shd w |} = (Done tt, w2, t2) /\
    released_objects t2 = released_objects t1.
Proof.
  intros Hready Hrun. apply factory_ready_passes_entry in Hready.
  rewrite (DestroyResource_outcome this w Hready) in Hrun.
  inversion Hrun; subst.
  rewrite (DestroyResource_outcome this _ Hready). simpl.
  do 2 eexists. split; reflexivity.
Qed.
End Claims.

(* ================================================================== *)
(** * GPUParticles: particle count and ping-pong indices *)

Module GPUParticlesFacts.
Import GPUParticles.

Lemma MaxNumParticles_value : MaxNumParticles = 1048576.
Proof. reflexivity. Qed.

Lemma curNumParticles_step (this : GPUParticlesApp) :
  0 <= curNumParticles this <= MaxNumParticles ->
  curNumParticles (fst (OnRunning this)) =
    Z.min (curNumParticles this + NumParticlesEmittedPerFrame) MaxNumParticles.
Proof.
  rewrite MaxNumParticles_value. intros H. unfold OnRunning. simpl.
  rewrite MaxNumParticles_value. unfold NumParticlesEmittedPerFrame.
  rewrite int32_wrap_small by lia.
  destruct (curNumParticles this + 100 >? 1048576) eqn:E.
  - apply Z.gtb_lt in E. lia.
  - rewrite Z.gtb_ltb in E. apply Z.ltb_ge in E. lia.
Qed.

(** C9. After [n] frames the number of active particles is
    [n * NumParticlesEmittedPerFrame], capped at [MaxNumParticles]; it
    is never above [MaxNumParticles]. *)
Theorem curNumParticles_after (n : nat) :
  curNumParticles (frames n new) =
    Z.min (Z.of_nat n * NumParticlesEmittedPerFrame) MaxNumParticles /\
  curNumParticles (frames n new) <= MaxNumParticles.
Proof.
  assert (H : curNumParticles (frames n new) =
              Z.min (Z.of_nat n * NumParticlesEmittedPerFrame) MaxNumParticles).
  { induction n as [|n IH]; [reflexivity|].
    cbn [frames]. rewrite curNumParticles_step.
    - rewrite IH, MaxNumParticles_value. unfold NumParticlesEmittedPerFrame. lia.
    - rewrite IH, MaxNumParticles_value. unfold NumParticlesEmittedPerFrame. lia. }
  split; [exact H|]. rewrite H. lia.
Qed.

Lemma rem_2_parity (z : Z) : Z.rem (z + 1) 2 <> Z.rem z 2.
Proof.
  intros H.
  pose proof (Z.quot_rem' z 2) as H0.
  pose proof (Z.quot_rem' (z + 1) 2) as H1.
  rewrite H in H1. lia.
Qed.

(** C10. In every frame, whatever the frame counter, the index of the
    particle buffer read and the index of the one drawn to are
    [(frameCount + 1) % 2] and [frameCount % 2] of the counter as
    incremented, and they differ. *)
Theorem ping_pong_distinct (this : GPUParticlesApp) :
  let app := fst (OnRunning this) in
  let f := snd (OnRunning this) in
  readIndex f = Z.rem (int32_wrap (frameCount app + 1)) NumParticleBuffers /\
  drawIndex f = Z.rem (frameCount app) NumParticleBuffers /\
  readIndex f <> drawIndex f /\
  forall frameCount : Z, Z.rem (frameCount + 1) 2 <> Z.rem frameCount 2.
Proof.
  simpl. split; [reflexivity|]. split; [reflexivity|]. split; [|apply rem_2_parity].
  unfold NumParticleBuffers.
  set (fc := int32_wrap (frameCount this + 1)).
  pose proof (int32_wrap_range (frameCount this + 1)) as Hr. fold fc in Hr.
  unfold int32_wrap at 1.
  destruct (Z.eq_dec fc (2 ^ 31 - 1)) as [->|Hne]; [vm_compute; discriminate|].
  rewrite Z.mod_small by lia.
  replace (fc + 1 + 2 ^ 31 - 2 ^ 31) with (fc + 1) by lia.
  apply rem_2_parity.
Qed.
End GPUParticlesFacts.

(* ================================================================== *)
(** * The methods run on the sample device *)

Module SampleRuns.
Import SampleDevice d3d11ShaderFactory.

Lemma scenario_accepted (s : ShaderSetup.t) :
  s = scenario \/ s = no_programs ->
  @device_accepts state device debug_build s.
Proof.
  intros [-> | ->]; split; simpl.
  - intros p d [<-|[]]. split; reflexivity.
  - intros b d [<-|[<-|[]]] Hb; [reflexivity|discriminate].
  - intros p d [].
  - intros b d [<-|[<-|[]]] Hb; [reflexivity|discriminate].
Qed.

Example scenario_entries :
  shader.uniformBlockEntries (shd (snd (fst scenario_created))) =
    [ {| shader.d3d11ConstantBuffer := 4098;
         shader.bindShaderStage := ShaderType.VertexShader;
         shader.bindSlotIndex := 3 |};
      {| shader.d3d11ConstantBuffer := nullptr;
         shader.bindShaderStage := ShaderType.FragmentShader;
         shader.bindSlotIndex := -1 |} ] /\
  shader.programEntries (shd (snd (fst scenario_created))) =
    [ {| shader.mask := 1; shader.vertexShader := 4096;
         shader.pixelShader := 4097 |} ] /\
  buffer_calls (snd scenario_created) = [(32, 4098)].
Proof. repeat split. Qed.

Lemma SetupResource_entries_witness :
  exists w' t,
    @SetupResource state device debug_build factory (start scenario)
      = (Done ResourceState.Valid, w', t) /\
    length (shader.programEntries (shd w')) = 1%nat /\
    length (shader.uniformBlockEntries (shd w')) = 2%nat.
Proof.
  destruct (@SetupResource_entries state device debug_build factory scenario
              (start scenario) eq_refl) as [Hshape Hreturns].
  destruct (Hreturns eq_refl eq_refl (scenario_accepted scenario (or_introl eq_refl)))
    as (w' & t & Hrun).
  exists w', t. split; [exact Hrun|].
  destruct (Hshape _ _ _ Hrun) as (Hp & Hu & _).
  split; assumption.
Defined.

Lemma SetupResource_uniform_buffers_witness :
  Forall2 (@entry_of_block debug_build)
    (ShaderSetup.uniformBlocks scenario)
    (shader.uniformBlockEntries (shd (snd (fst scenario_created)))) /\
  Forall2 buffer_of_block
    (filter (fun be => @bound debug_build (fst be))
       (combine (ShaderSetup.uniformBlocks scenario)
          (shader.uniformBlockEntries (shd (snd (fst scenario_created))))))
    (buffer_calls (snd scenario_created)).
Proof.
  exact (@SetupResource_uniform_buffers state device debug_build factory scenario
           (start scenario) ResourceState.Valid
           (snd (fst scenario_created)) (snd scenario_created)
           eq_refl eq_refl (or_introl eq_refl) eq_refl).
Defined.

Lemma create_then_destroy_witness :
  exists w2 t2,
    @DestroyResource state device debug_build factory (snd (fst scenario_created))
      = (Done tt, w2, t2) /\
    shd w2 = shader.Empty scenario /\
    released_objects t2 = created_objects (snd scenario_created) /\
    released_objects t2 = stored_objects (shd (snd (fst scenario_created))).
Proof.
  exact (@create_then_destroy state device debug_build factory scenario
           (start scenario) ResourceState.Valid
           (snd (fst scenario_created)) (snd scenario_created)
           eq_refl eq_refl).
Defined.

Example scenario_released :
  created_objects (snd scenario_created) =
    [(VertexShaderObj, 4096); (PixelShaderObj, 4097); (BufferObj, 4098)].
Proof. reflexivity. Qed.



(** Without the sizes the run need not return: no program variant and a
    block at slot 3 of byte size 0 stop a debug build at the assertion on
    the size, before any [CreateBuffer] call. *)
Example zero_programs_unsized_block :
  @SetupResource state device debug_build factory
    (start {| ShaderSetup.programs := [];
              ShaderSetup.uniformBlocks :=
                [{| ShaderSetup.bindSlot := 3;
                    ShaderSetup.bindStage := ShaderType.VertexShader;
                    ShaderSetup.layout :=
                      {| UniformLayout.ByteSizeWithoutTextures := 0 |} |}] |})
  = (Crashed AssertFailed,
     start {| ShaderSetup.programs := [];
              ShaderSetup.uniformBlocks :=
                [{| ShaderSetup.bindSlot := 3;
                    ShaderSetup.bindStage := ShaderType.VertexShader;
                    ShaderSetup.layout :=
                      {| UniformLayout.ByteSizeWithoutTextures := 0 |} |}] |},
     [call_invalidateShaderState]).
Proof. reflexivity. Qed.

Lemma SetupResource_no_error_result_witness :
  fst (fst rejected_run) = Crashed AssertFailed /\
  exists t0 c, snd rejected_run = t0 ++ [c] /\ create_failed c = true /\
               existsb create_failed t0 = false.
Proof.
  exact (proj2 (@SetupResource_no_error_result state device debug_build factory
                  (start rejected) (fst (fst rejected_run))
                  (snd (fst rejected_run)) (snd rejected_run) eq_refl)
               eq_refl).
Defined.

Lemma Setup_twice_witness :
  @Setup state debug_build factory ptrs (start scenario)
    = (Crashed AssertFailed, start scenario, []) /\
  @Setup state release_build factory ptrs (start scenario)
    = (Done factory, start scenario, []).
Proof.
  split.
  - exact (proj1 (@Setup_twice state debug_build new ptrs ptrs
                    (start scenario) (start scenario) factory [] eq_refl)
                 eq_refl).
  - exact (proj1 (proj2 (@Setup_twice state release_build new ptrs ptrs
                           (start scenario) (start scenario) factory [] eq_refl)
                        the_renderer eq_refl)
                 eq_refl).
Defined.

Lemma invalidate_first_witness :
  (exists rest, snd scenario_created = call_invalidateShaderState :: rest /\
                existsb is_invalidate rest = false /\
                forallb is_create rest = true) /\
  (exists rest, snd rejected_run = call_invalidateShaderState :: rest /\
                existsb is_invalidate rest = false /\
                forallb is_create rest = true).
Proof.
  split.
  - exact (proj1 (@invalidate_first state device debug_build factory eq_refl)
             (start scenario) _ _ _ eq_refl).
  - exact (proj1 (@invalidate_first state device debug_build factory eq_refl)
             (start rejected) (fst (fst rejected_run)) (snd (fst rejected_run))
             (snd rejected_run) eq_refl).
Defined.

Lemma DestroyResource_empty_witness :
  @DestroyResource state device debug_build factory (start scenario)
    = (Done tt, start scenario, [call_invalidateShaderState]).
Proof.
  exact (@DestroyResource_empty state device debug_build factory
           (start scenario) eq_refl eq_refl eq_refl).
Defined.
End SampleRuns.

(* ================================================================== *)
(** * What the device is asked for, in every run *)

Section Requests.
Context {D : Type} {device : ID3D11Device D} {pre : Pre}.
Import d3d11ShaderFactory.

(** A property of every call of a loop follows from the property for the
    calls of each iteration; [I] is what the iterations keep of [acc]. *)
Lemma for_range_every_call {A} (body : Z -> A -> M D A) (good : call -> Prop)
    (I : A -> Prop) (n : nat) (lo : Z) :
  (forall i acc w, I acc ->
     match body i acc w with
     | (Done acc', _, t) => Forall good t /\ I acc'
     | (Crashed _, _, t) => Forall good t
     end) ->
  forall acc w, I acc -> Forall good (snd (for_range n lo body acc w)).
Proof.
  intros Hbody acc w HI.
  pose proof (for_range_invariant body
    (fun _ acc' _ t => I acc' /\ Forall good t)
    (fun _ _ t => Forall good t) lo (n := n)) as H.
  cbv beta in H.
  match type of H with ?A -> _ => assert (Hstep : A) end.
  { clear H. intros k a w1 t _ [Ha Ht].
    specialize (Hbody (lo + Z.of_nat k) a w1 Ha).
    destruct (body (lo + Z.of_nat k) a w1) as [[[a'|f] w2] t2].
    - destruct Hbody as [Hg Ha']. split; [exact Ha'|].
      apply Forall_app. split; assumption.
    - apply Forall_app. split; assumption. }
  specialize (H Hstep acc w (conj HI (Forall_nil _))).
  destruct (for_range n lo body acc w) as [[[a'|f] w2] t2]; simpl.
  - apply H.
  - exact H.
Qed.

(** A property of the call to [invalidateShaderState] and of the calls of
    the two loop bodies is a property of every call of [SetupResource]. *)
Lemma SetupResource_every_call this (good : call -> Prop) :
  good call_invalidateShaderState ->
  (forall setup i (w : world D),
     Forall good (snd (SetupResource_program this setup ShaderLang.HLSL5 i tt w))) ->
  (forall setup i cbDesc (w : world D),
     MiscFlags cbDesc = 0 -> StructureByteStride cbDesc = 0 ->
     Forall good (snd (SetupResource_uniformBlock this setup i cbDesc w))) ->
  forall w : world D, Forall good (snd (SetupResource this w)).
Proof.
  intros Hinv Hprog Hblock w.
  assert (Hp : forall setup (w1 : world D),
    Forall good (snd (for_loop 0 (ShaderSetup.NumPrograms setup)
                        (SetupResource_program this setup ShaderLang.HLSL5) tt w1))).
  { intros setup w1. unfold for_loop.
    apply for_range_every_call with (I := fun _ => True); [|exact I].
    intros i [] w2 _. specialize (Hprog setup i w2).
    destruct (SetupResource_program this setup ShaderLang.HLSL5 i tt w2)
      as [[[[]|f] w3] t3]; simpl in Hprog; auto. }
  assert (Hu : forall setup (w1 : world D),
    Forall good (snd (for_loop 0 (ShaderSetup.NumUniformBlocks setup)
                        (SetupResource_uniformBlock this setup)
                        Memory.Clear_D3D11_BUFFER_DESC w1))).
  { intros setup w1. unfold for_loop.
    apply for_range_every_call
      with (I := fun cb => MiscFlags cb = 0 /\ StructureByteStride cb = 0);
      [|split; reflexivity].
    intros i cb w2 [HM HS]. specialize (Hblock setup i cb w2 HM HS).
    pose proof (SetupResource_uniformBlock_outcome this setup i cb w2 HM HS) as Hout.
    destruct (SetupResource_uniformBlock this setup i cb w2)
      as [[[cb'|f] w3] t3]; simpl in Hblock; [|exact Hblock].
    destruct Hout as (HM' & HS' & _). auto. }
  unfold SetupResource.
  cbv beta iota delta [bind ret crash emit gets o_assert o_assert_dbg
                       renderer_invalidateShaderState].
  destruct ORYOL_DEBUG;
    [destruct (isValid this); [destruct (nonnull (d3d11Device this))|]|];
    simpl; try constructor.
  all: destruct (gfxPointers_renderer (pointers this)); simpl; try constructor.
  all: specialize (Hp (shader.Setup (shd w)) w);
    destruct (for_loop 0 (ShaderSetup.NumPrograms (shader.Setup (shd w)))
                (SetupResource_program this (shader.Setup (shd w)) ShaderLang.HLSL5)
                tt w) as [[[[]|f] w3] tp]; simpl in Hp |- *;
    [|constructor; assumption].
  all: specialize (Hu (shader.Setup (shd w)) w3);
    destruct (for_loop 0 (ShaderSetup.NumUniformBlocks (shader.Setup (shd w)))
                (SetupResource_uniformBlock this (shader.Setup (shd w)))
                Memory.Clear_D3D11_BUFFER_DESC w3) as [[[cb|f] w4] tu];
    simpl in Hu |- *;
    [|constructor; [assumption|apply Forall_app; split; assumption]].
  - destruct (shader.getNumUniformBlockEntries (shd w4) =?
              ShaderSetup.NumUniformBlocks (shader.Setup (shd w))); simpl;
      rewrite ?app_nil_r;
      (constructor; [assumption|apply Forall_app; split; assumption]).
  - rewrite ?app_nil_r.
    constructor; [assumption|apply Forall_app; split; assumption].
Qed.

Lemma RoundUp_16_as_UINT (n : Z) :
  (16 | uint32_wrap (Memory.RoundUp n 16)) /\
  0 <= uint32_wrap (Memory.RoundUp n 16) < 2 ^ 32.
Proof.
  unfold uint32_wrap, Memory.RoundUp. split.
  - set (q := (n + (16 - 1)) / 16).
    rewrite Z.mod_eq by lia.
    exists (q - 2 ^ 28 * (q * 16 / 2 ^ 32)). lia.
  - apply Z.mod_pos_bound. lia.
Qed.

Lemma Forall_flat_map_calls {B} (f : call -> list B) (P : B -> Prop) t :
  Forall (fun c => Forall P (f c)) t -> Forall P (flat_map f t).
Proof.
  induction 1 as [|c t Hc Ht IH]; simpl; [constructor|].
  apply Forall_app. split; assumption.
Qed.

(** X4. Whatever the factory, the resource, the device and the outcome
    of the run, every buffer [SetupResource] asks of the device is a
    constant buffer with default usage and no CPU access, of a byte width
    that is a multiple of 16. *)
Theorem SetupResource_buffer_requests this (w : world D) :
  Forall constant_buffer_request (requested_buffers (snd (SetupResource this w))).
Proof.
  apply Forall_flat_map_calls.
  apply SetupResource_every_call.
  - constructor.
  - intros setup i w1.
    unfold SetupResource_program, ShaderSetup.VertexShaderByteCode,
      ShaderSetup.FragmentShaderByteCode.
    destruct (ShaderSetup.vsByteCode _ _) as [vsPtr vsSize].
    destruct (ShaderSetup.fsByteCode _ _) as [psPtr psSize].
    run. all: simpl; repeat constructor.
  - intros setup i cbDesc w1 HM HS.
    unfold SetupResource_uniformBlock. run.
    all: simpl; repeat constructor.
    all: simpl; try assumption; apply RoundUp_16_as_UINT.
Qed.

(** X5. In a debug build no shader-stage creation call is made with a null
    bytecode pointer, whatever the description and the outcome. *)
Theorem SetupResource_debug_bytecode this (w : world D) :
  ORYOL_DEBUG = true ->
  Forall (fun p => p <> nullptr) (bytecodes_given (snd (SetupResource this w))).
Proof.
  intros Hdbg.
  apply Forall_flat_map_calls.
  apply SetupResource_every_call.
  - constructor.
  - intros setup i w1.
    unfold SetupResource_program, ShaderSetup.VertexShaderByteCode,
      ShaderSetup.FragmentShaderByteCode.
    destruct (ShaderSetup.vsByteCode _ _) as [vsPtr vsSize].
    destruct (ShaderSetup.fsByteCode _ _) as [psPtr psSize].
    run. all: try congruence.
    all: simpl; repeat constructor; apply nonnull_true; assumption.
  - intros setup i cbDesc w1 HM HS.
    unfold SetupResource_uniformBlock. run.
    all: simpl; repeat constructor.
Qed.
End Requests.

(* ================================================================== *)
(** * The life of a factory, and of a resource *)

Section Lifecycle.
Context {D : Type} {device : ID3D11Device D} {pre : Pre}.
Import d3d11ShaderFactory.

Lemma programs_created_count d ps es t d' :
  all_created program_created d ps es t d' ->
  length t = (2 * length ps)%nat /\
  (ORYOL_DEBUG = true \/ conforming ->
   Forall (fun e => shader.vertexShader e <> nullptr /\
                    shader.pixelShader e <> nullptr) es).
Proof.
  induction 1 as [d|p e ps es d t d1 ts d2 Hpe H IH].
  - split; [reflexivity|constructor].
  - destruct IH as [IHn IHf].
    destruct Hpe as (hr1 & hr2 & d0 & Hvs & Hps & H1 & H2 & _ & -> & Hdbg).
    split; [simpl; lia|].
    intros Hd. constructor; [|auto].
    rewrite <- !nonnull_true.
    destruct Hd as [Hd|(Hcv & Hcp & _)]; [auto|].
    specialize (Hcv (fst (ShaderSetup.vsByteCode p ShaderLang.HLSL5))
                    (snd (ShaderSetup.vsByteCode p ShaderLang.HLSL5)) NULL d).
    specialize (Hcp (fst (ShaderSetup.fsByteCode p ShaderLang.HLSL5))
                    (snd (ShaderSetup.fsByteCode p ShaderLang.HLSL5)) NULL d0).
    simpl in Hvs, Hps. rewrite Hvs in Hcv. rewrite Hps in Hcp. auto.
Qed.

Lemma blocks_created_count d bs us t d' :
  all_created block_created d bs us t d' ->
  length t = length (filter bound bs).
Proof.
  induction 1 as [d|b e bs us d t d1 ts d2 Hbe H IH]; [reflexivity|].
  destruct Hbe as (_ & _ & [(Hb & _ & -> & _)|(Hb & hr & _ & _ & -> & _)]);
    simpl; rewrite Hb; simpl; congruence.
Qed.

(** X3. A run of [SetupResource] that returns has made one call to
    [invalidateShaderState], two creation calls per program variant and one
    per uniform block with a bind slot, and nothing else. *)
Theorem SetupResource_call_count this (w : world D) r w' t :
  SetupResource this w = (Done r, w', t) ->
  length t =
    (1 + 2 * length (ShaderSetup.programs (shader.Setup (shd w)))
       + length (filter bound (ShaderSetup.uniformBlocks (shader.Setup (shd w)))))%nat /\
  length (filter is_release t) = 0%nat.
Proof.
  intros Hrun. pose proof (SetupResource_outcome this w) as H.
  rewrite Hrun in H.
  destruct H as (_ & _ & es & us & tp & tu & d1 & Hes & Hus & -> & _).
  destruct (programs_created_count _ _ _ _ _ Hes) as [Hn _].
  pose proof (blocks_created_count _ _ _ _ _ Hus) as Hm.
  split.
  - simpl. rewrite length_app. lia.
  - simpl. rewrite filter_app, length_app.
    assert (Hnone : forall l, forallb is_create l = true ->
                              length (filter is_release l) = 0%nat).
    { induction l as [|c l IH]; [reflexivity|]. simpl. intros Hc.
      apply andb_true_iff in Hc. destruct Hc as [Hc Hl].
      destruct c; simpl in *; try discriminate; auto. }
    rewrite !Hnone; [reflexivity| |].
    + eapply all_created_calls; [|exact Hus].
      intros; eapply block_created_calls; eauto.
    + eapply all_created_calls; [|exact Hes].
      intros; eapply program_created_calls; eauto.
Qed.

(** X6. In the resource [SetupResource] returns on, in a debug build or
    with a device that gives an object whenever it reports success, every
    variant entry made by the run holds a non-null vertex shader and a
    non-null pixel shader. *)
Theorem SetupResource_stages_nonnull this setup (w : world D) r w' t :
  ORYOL_DEBUG = true \/ conforming ->
  shd w = shader.Empty setup ->
  SetupResource this w = (Done r, w', t) ->
  Forall (fun e => shader.vertexShader e <> nullptr /\
                   shader.pixelShader e <> nullptr)
    (shader.programEntries (shd w')).
Proof.
  intros Hd Hw Hrun.
  destruct (SetupResource_Done this setup w r w' t Hw Hrun)
    as (_ & _ & tp & tu & d1 & Hes & _).
  destruct (programs_created_count _ _ _ _ _ Hes) as [_ Hf]. auto.
Qed.

(** X7. [SetupResource] adds to the resource and changes nothing that is
    in it: where it returns, the variant entries and the uniform entries
    it found are still there, in front of one new variant entry per
    program and one new uniform entry per uniform block, and the [Setup]
    is the same. *)
Theorem SetupResource_appends this (w : world D) r w' t :
  SetupResource this w = (Done r, w', t) ->
  exists es us,
    shader.programEntries (shd w') = shader.programEntries (shd w) ++ es /\
    length es = length (ShaderSetup.programs (shader.Setup (shd w))) /\
    shader.uniformBlockEntries (shd w') = shader.uniformBlockEntries (shd w) ++ us /\
    length us = length (ShaderSetup.uniformBlocks (shader.Setup (shd w))) /\
    shader.Setup (shd w') = shader.Setup (shd w).
Proof.
  intros Hrun. pose proof (SetupResource_outcome this w) as H.
  rewrite Hrun in H.
  destruct H as (_ & _ & es & us & tp & tu & d1 & Hes & Hus & _ & ->).
  exists es, us. simpl.
  split; [reflexivity|]. split; [eapply all_created_length; exact Hes|].
  split; [reflexivity|]. split; [eapply all_created_length; exact Hus|].
  reflexivity.
Qed.

(** In a debug build a run of [SetupResource] that returns has passed the
    check of its last line. *)
Lemma SetupResource_debug_postcondition this (w : world D) r w' t :
  ORYOL_DEBUG = true ->
  SetupResource this w = (Done r, w', t) ->
  shader.getNumUniformBlockEntries (shd w') =
    ShaderSetup.NumUniformBlocks (shader.Setup (shd w)).
Proof.
  intros Hdbg. unfold SetupResource.
  cbv beta iota delta [bind ret crash emit gets o_assert o_assert_dbg
                       renderer_invalidateShaderState].
  rewrite Hdbg.
  destruct (isValid this); [|discriminate].
  destruct (nonnull (d3d11Device this)); [|discriminate].
  destruct (gfxPointers_renderer (pointers this)); [|discriminate].
  simpl.
  destruct (for_loop 0 (ShaderSetup.NumPrograms (shader.Setup (shd w)))
              (SetupResource_program this (shader.Setup (shd w)) ShaderLang.HLSL5)
              tt w) as [[[[]|f] w3] tp]; [|discriminate].
  simpl.
  destruct (for_loop 0 (ShaderSetup.NumUniformBlocks (shader.Setup (shd w)))
              (SetupResource_uniformBlock this (shader.Setup (shd w)))
              Memory.Clear_D3D11_BUFFER_DESC w3) as [[[cb|f] w4] tu]; [|discriminate].
  simpl.
  destruct (shader.getNumUniformBlockEntries (shd w4) =?
            ShaderSetup.NumUniformBlocks (shader.Setup (shd w))) eqn:E;
    [|discriminate].
  simpl. intros H. inversion H; subst. apply Z.eqb_eq. exact E.
Qed.

(** X8. In a debug build [SetupResource] does not return on a resource that
    already holds a uniform entry: the run ends in a fault. *)
Theorem SetupResource_debug_second_create this (w : world D) :
  ORYOL_DEBUG = true ->
  shader.uniformBlockEntries (shd w) <> [] ->
  exists f, fst (fst (SetupResource this w)) = Crashed f.
Proof.
  intros Hdbg Hold.
  destruct (SetupResource this w) as [[[r|f] w'] t] eqn:Hrun; [|simpl; eauto].
  exfalso.
  pose proof (SetupResource_debug_postcondition this w r w' t Hdbg Hrun) as Hpost.
  pose proof (SetupResource_outcome this w) as H. rewrite Hrun in H.
  destruct H as (_ & _ & es & us & tp & tu & d1 & _ & Hus & _ & Hshd).
  apply all_created_length in Hus.
  unfold shader.getNumUniformBlockEntries, ShaderSetup.NumUniformBlocks in Hpost.
  rewrite Hshd in Hpost. simpl in Hpost. rewrite length_app in Hpost.
  destruct (shader.uniformBlockEntries (shd w)); [congruence|].
  simpl in Hpost. lia.
Qed.

(** X9. On a factory that is set up, [DestroyResource] returns on any
    resource, whatever it holds: it releases the non-null objects of the
    resource, each once, the two stages of each variant first and the
    buffers after them, makes no call for a null handle, creates nothing,
    and leaves both sequences empty. *)
Theorem DestroyResource_releases_held this (w : world D) :
  factory_ready this = true ->
  exists w' rest,
    DestroyResource this w = (Done tt, w', call_invalidateShaderState :: rest) /\
    released_objects rest = stored_objects (shd w) /\
    forallb is_release rest = true /\
    dev w' = apply_calls rest (dev w) /\
    shd w' = shader.Clear (shd w).
Proof.
  intros Hready. apply factory_ready_passes_entry in Hready.
  rewrite (DestroyResource_outcome this w Hready).
  do 2 eexists. split; [reflexivity|].
  split; [|split; [apply releases_are_releases|split; reflexivity]].
  unfold released_objects, stored_objects. rewrite flat_map_app.
  fold (released_objects (flat_map program_releases (shader.programEntries (shd w)))).
  fold (released_objects (flat_map buffer_releases (shader.uniformBlockEntries (shd w)))).
  rewrite released_program_releases, released_buffer_releases. reflexivity.
Qed.

(** X1. The life of a factory: [Setup] on a factory that is not set up
    takes the device of the renderer and makes the factory valid;
    [Discard] after it gives the factory of the constructor back, on
    which the destructor's check passes. *)
Theorem Setup_Discard_round_trip this ptrs r (w : world D) :
  isValid this = false ->
  gfxPointers_renderer ptrs = Some r ->
  exists this1,
    Setup this ptrs w = (Done this1, w, []) /\
    IsValid this1 = true /\
    d3d11Device this1 = renderer_d3d11Device r /\
    pointers this1 = ptrs /\
    Discard this1 w = (Done new, w, []) /\
    IsValid new = false /\
    delete new w = (Done tt, w, []).
Proof.
  intros Hv Hr. unfold Setup, Discard, delete, IsValid.
  cbv beta iota delta [bind ret crash o_assert o_assert_dbg].
  rewrite Hv, Hr. simpl.
  eexists. split; [destruct ORYOL_DEBUG; reflexivity|].
  simpl. repeat split; destruct ORYOL_DEBUG; reflexivity.
Qed.

(** X2. In a debug build, [SetupResource] and [DestroyResource] on a
    factory that is not valid or has no device, and the destructor on a
    factory that is still valid, end in a failed assertion before any call
    is made, the device and the resource untouched. *)
Theorem debug_guards this (w : world D) :
  ORYOL_DEBUG = true ->
  ((isValid this && nonnull (d3d11Device this)) = false ->
   SetupResource this w = (Crashed AssertFailed, w, []) /\
   DestroyResource this w = (Crashed AssertFailed, w, [])) /\
  (isValid this = true -> delete this w = (Crashed AssertFailed, w, [])) /\
  (isValid this = false -> Discard this w = (Crashed AssertFailed, w, [])).
Proof.
  intros Hdbg.
  unfold SetupResource, DestroyResource, delete, Discard.
  cbv beta iota delta [bind ret crash o_assert o_assert_dbg].
  rewrite Hdbg. split; [|split].
  - intros H. apply andb_false_iff in H.
    destruct (isValid this); [|split; reflexivity].
    destruct H as [H|H]; [discriminate|]. rewrite H. split; reflexivity.
  - intros ->. reflexivity.
  - intros ->. reflexivity.
Qed.
End Lifecycle.

(* ================================================================== *)
(** * GPUParticles: the frames one after the other *)

Module GPUParticlesFrames.
Import GPUParticles.

Lemma rem_2_nonneg (z : Z) : 0 <= z -> Z.rem z 2 = z mod 2.
Proof. intros H. apply Z.rem_mod_nonneg; lia. Qed.

Lemma frameCount_step (this : GPUParticlesApp) :
  - 2 ^ 31 <= frameCount this < 2 ^ 31 - 1 ->
  frameCount (fst (OnRunning this)) = frameCount this + 1.
Proof. intros H. simpl. apply int32_wrap_small. lia. Qed.

Lemma frame_of_counter (this : GPUParticlesApp) :
  0 <= frameCount this < 2 ^ 31 - 2 ->
  readIndex (snd (OnRunning this)) = (frameCount this + 2) mod 2 /\
  drawIndex (snd (OnRunning this)) = (frameCount this + 1) mod 2.
Proof.
  intros H. simpl. unfold NumParticleBuffers.
  rewrite !(@int32_wrap_small (frameCount this + 1)) by lia.
  rewrite !(@int32_wrap_small (frameCount this + 1 + 1)) by lia.
  rewrite !rem_2_nonneg by lia.
  replace (frameCount this + 1 + 1) with (frameCount this + 2) by lia. auto.
Qed.

(** X10. Ping and pong: while the frame counter is a non-negative [int]
    short of its last values, the buffer a frame draws to is the one the
    next frame reads, the buffer it reads is the one the next frame draws
    to, and both indices are indices of [particleBuffer]. *)
Theorem ping_pong_handoff (this : GPUParticlesApp) :
  0 <= frameCount this < 2 ^ 31 - 3 ->
  let frame1 := snd (OnRunning this) in
  let frame2 := snd (OnRunning (fst (OnRunning this))) in
  readIndex frame2 = drawIndex frame1 /\
  drawIndex frame2 = readIndex frame1 /\
  0 <= readIndex frame1 < NumParticleBuffers /\
  0 <= drawIndex frame1 < NumParticleBuffers.
Proof.
  intros H. cbv zeta.
  destruct (frame_of_counter this ltac:(lia)) as [Hr1 Hd1].
  destruct (frame_of_counter (fst (OnRunning this))) as [Hr2 Hd2].
  { rewrite frameCount_step; lia. }
  rewrite frameCount_step in Hr2, Hd2 by lia.
  rewrite Hr1, Hd1, Hr2, Hd2. unfold NumParticleBuffers.
  pose proof (Z.mod_pos_bound (frameCount this + 1) 2 ltac:(lia)).
  pose proof (Z.mod_pos_bound (frameCount this + 2) 2 ltac:(lia)).
  replace (frameCount this + 1 + 2) with (frameCount this + 1 + 1 * 2) by lia.
  replace (frameCount this + 1 + 1) with (frameCount this + 2) by lia.
  rewrite Z.mod_add by lia. lia.
Qed.

Lemma frameCount_frames (n : nat) :
  Z.of_nat n < 2 ^ 31 -> frameCount (frames n new) = Z.of_nat n.
Proof.
  induction n as [|n IH]; intros H; [reflexivity|].
  cbn [frames]. rewrite frameCount_step; rewrite IH; lia.
Qed.

(** X11. Counting the frames from 1, frame [k] of the application draws to
    particle buffer [k mod 2] and reads particle buffer [(k + 1) mod 2]:
    the first frame reads buffer 0 and draws to buffer 1. *)
Theorem frame_indices (n : nat) :
  Z.of_nat n < 2 ^ 31 - 2 ->
  let k := Z.of_nat n + 1 in
  let frame := snd (OnRunning (frames n new)) in
  frameCount (fst (OnRunning (frames n new))) = k /\
  drawIndex frame = k mod 2 /\
  readIndex frame = (k + 1) mod 2.
Proof.
  intros H. cbv zeta.
  destruct (frame_of_counter (frames n new)) as [Hr Hd].
  { rewrite frameCount_frames; lia. }
  rewrite frameCount_step by (rewrite frameCount_frames; lia).
  rewrite frameCount_frames in * by lia.
  rewrite Hr, Hd. split; [reflexivity|]. split; [reflexivity|].
  f_equal. lia.
Qed.

(** X12. The scissor rectangle of the update pass: with the particle count
    in its range, the rectangle is as wide as the particle buffer, its
    height is the number of rows of [NumParticlesX] particles begun by the
    active particles plus one, so that it holds them all, and it is taller
    than the particle buffer, by one row, exactly when the particle count
    has reached [MaxNumParticles]. *)
Theorem scissor_rect (this : GPUParticlesApp) :
  0 <= curNumParticles this <= MaxNumParticles ->
  let frame := snd (OnRunning this) in
  scissorWidth frame = ParticleBufferWidth /\
  ParticleBufferWidth = 2 * NumParticlesX /\
  (scissorHeight frame - 1) * NumParticlesX <= numInstances frame
    < scissorHeight frame * NumParticlesX /\
  1 <= scissorHeight frame <= ParticleBufferHeight + 1 /\
  (ParticleBufferHeight < scissorHeight frame <->
   numInstances frame = MaxNumParticles).
Proof.
  intros H. cbv zeta.
  pose proof (GPUParticlesFacts.curNumParticles_step this H) as Hstep.
  unfold OnRunning in *. cbn [fst snd scissorWidth scissorHeight numInstances
                              curNumParticles] in *.
  rewrite Hstep. clear Hstep.
  rewrite GPUParticlesFacts.MaxNumParticles_value in *.
  unfold NumParticlesEmittedPerFrame, NumParticlesX, ParticleBufferHeight,
    NumParticlesY.
  set (c := Z.min (curNumParticles this + 100) 1048576).
  assert (Hc : 100 <= c <= 1048576) by (unfold c; lia).
  rewrite Z.quot_div_nonneg by lia.
  assert (Hq : 0 <= c / 1024 <= 1024).
  { split; [apply Z.div_pos; lia|apply Z.div_le_upper_bound; lia]. }
  rewrite (@int32_wrap_small (c / 1024 + 1)) by lia.
  pose proof (Z.div_mod c 1024 ltac:(lia)).
  pose proof (Z.mod_pos_bound c 1024 ltac:(lia)).
  split; [reflexivity|]. split; [reflexivity|]. lia.
Qed.
End GPUParticlesFrames.

(* ================================================================== *)
(** * The order of the calls, and more runs on the sample device *)

Section Order.
Context {D : Type} {device : ID3D11Device D} {pre : Pre}.
Import d3d11ShaderFactory.

(** X13. The order of the calls of a run of [SetupResource] that returns:
    [invalidateShaderState], then the shader-stage creation calls, all of
    them, then the [CreateBuffer] calls; no buffer is asked for before the
    last shader stage exists. *)
Theorem SetupResource_call_order this (w : world D) r w' t :
  SetupResource this w = (Done r, w', t) ->
  exists stages buffers,
    t = call_invalidateShaderState :: stages ++ buffers /\
    forallb is_shader_create stages = true /\
    requested_buffers stages = [] /\
    shader_calls buffers = [] /\
    length (requested_buffers buffers) = length buffers.
Proof.
  intros Hrun. pose proof (SetupResource_outcome this w) as H.
  rewrite Hrun in H.
  destruct H as (_ & _ & es & us & tp & tu & d1 & Hes & Hus & -> & _).
  exists tp, tu. split; [reflexivity|].
  assert (Hs : forallb is_shader_create tp = true).
  { eapply all_created_calls; [|exact Hes].
    intros; eapply program_created_calls; eauto. }
  assert (Hb : forallb (fun c => negb (is_shader_create c)) tu = true
               /\ forallb is_create tu = true).
  { split; (eapply all_created_calls; [|exact Hus]);
      intros; eapply block_created_calls; eauto. }
  destruct Hb as [Hb Hc].
  split; [exact Hs|]. clear Hes Hus Hrun. split; [|split].
  - induction tp as [|c tp IH]; [reflexivity|]. simpl in Hs.
    apply andb_true_iff in Hs. destruct Hs as [Hc1 Hs].
    unfold requested_buffers in *. simpl. rewrite (IH Hs).
    destruct c; simpl in *; try discriminate; reflexivity.
  - induction tu as [|c tu IH]; [reflexivity|]. simpl in Hb, Hc.
    apply andb_true_iff in Hb. destruct Hb as [Hb1 Hb].
    apply andb_true_iff in Hc. destruct Hc as [_ Hc].
    unfold shader_calls in *. simpl. rewrite (IH Hb Hc).
    destruct c; simpl in *; try discriminate; reflexivity.
  - induction tu as [|c tu IH]; [reflexivity|]. simpl in Hb, Hc.
    apply andb_true_iff in Hb. destruct Hb as [Hb1 Hb].
    apply andb_true_iff in Hc. destruct Hc as [Hc1 Hc].
    unfold requested_buffers in *. simpl. rewrite length_app, (IH Hb Hc).
    destruct c; simpl in *; try discriminate; reflexivity.
Qed.
End Order.

Module MoreRuns.
Import SampleDevice d3d11ShaderFactory.

Lemma Setup_Discard_round_trip_witness :
  exists this1,
    @Setup state debug_build new ptrs (start scenario) = (Done this1, start scenario, []) /\
    IsValid this1 = true /\
    d3d11Device this1 = renderer_d3d11Device the_renderer /\
    pointers this1 = ptrs /\
    @Discard state debug_build this1 (start scenario) = (Done new, start scenario, []) /\
    IsValid new = false /\
    @delete state debug_build new (start scenario) = (Done tt, start scenario, []).
Proof.
  exact (@Setup_Discard_round_trip state debug_build new ptrs the_renderer
           (start scenario) eq_refl eq_refl).
Defined.

Lemma debug_guards_witness :
  (@SetupResource state device debug_build new (start scenario)
     = (Crashed AssertFailed, start scenario, []) /\
   @DestroyResource state device debug_build new (start scenario)
     = (Crashed AssertFailed, start scenario, [])) /\
  @delete state debug_build factory (start scenario)
    = (Crashed AssertFailed, start scenario, []) /\
  @Discard state debug_build new (start scenario)
    = (Crashed AssertFailed, start scenario, []).
Proof.
  split; [|split].
  - exact (proj1 (@debug_guards state device debug_build new (start scenario)
                    eq_refl) eq_refl).
  - exact (proj1 (proj2 (@debug_guards state device debug_build factory
                           (start scenario) eq_refl)) eq_refl).
  - exact (proj2 (proj2 (@debug_guards state device debug_build new
                           (start scenario) eq_refl)) eq_refl).
Defined.

Lemma SetupResource_call_count_witness :
  length (snd scenario_created) = 4%nat /\
  length (filter is_release (snd scenario_created)) = 0%nat.
Proof.
  exact (@SetupResource_call_count state device debug_build factory
           (start scenario) ResourceState.Valid (snd (fst scenario_created))
           (snd scenario_created) eq_refl).
Defined.

Lemma SetupResource_debug_bytecode_witness :
  Forall (fun p => p <> nullptr) (bytecodes_given (snd scenario_created)) /\
  Forall (fun p => p <> nullptr) (bytecodes_given (snd rejected_run)).
Proof.
  split.
  - exact (@SetupResource_debug_bytecode state device debug_build factory
             (start scenario) eq_refl).
  - exact (@SetupResource_debug_bytecode state device debug_build factory
             (start rejected) eq_refl).
Defined.

Lemma SetupResource_stages_nonnull_witness :
  Forall (fun e => shader.vertexShader e <> nullptr /\
                   shader.pixelShader e <> nullptr)
    (shader.programEntries (shd (snd (fst scenario_created)))).
Proof.
  exact (@SetupResource_stages_nonnull state device debug_build factory scenario
           (start scenario) ResourceState.Valid (snd (fst scenario_created))
           (snd scenario_created) (or_introl eq_refl) eq_refl eq_refl).
Defined.

Lemma SetupResource_appends_witness :
  exists es us,
    shader.programEntries (shd (snd (fst scenario_created_release))) = [] ++ es /\
    length es = 1%nat /\
    shader.uniformBlockEntries (shd (snd (fst scenario_created_release))) = [] ++ us /\
    length us = 2%nat /\
    shader.Setup (shd (snd (fst scenario_created_release))) = scenario.
Proof.
  exact (@SetupResource_appends state device release_build factory
           (start scenario) ResourceState.Valid
           (snd (fst scenario_created_release)) (snd scenario_created_release)
           eq_refl).
Defined.

Lemma SetupResource_debug_second_create_witness :
  exists f,
    fst (fst (@SetupResource state device debug_build factory
                (snd (fst scenario_created)))) = Crashed f.
Proof.
  exact (@SetupResource_debug_second_create state device debug_build factory
           (snd (fst scenario_created)) eq_refl ltac:(discriminate)).
Defined.

Lemma DestroyResource_releases_held_witness :
  exists w' rest,
    @DestroyResource state device debug_build factory (snd (fst scenario_created))
      = (Done tt, w', call_invalidateShaderState :: rest) /\
    released_objects rest = stored_objects (shd (snd (fst scenario_created))) /\
    forallb is_release rest = true /\
    dev w' = apply_calls rest (dev (snd (fst scenario_created))) /\
    shd w' = shader.Clear (shd (snd (fst scenario_created))).
Proof.
  exact (@DestroyResource_releases_held state device debug_build factory
           (snd (fst scenario_created)) eq_refl).
Defined.

Lemma SetupResource_call_order_witness :
  exists stages buffers,
    snd scenario_created = call_invalidateShaderState :: stages ++ buffers /\
    forallb is_shader_create stages = true /\
    requested_buffers stages = [] /\
    shader_calls buffers = [] /\
    length (requested_buffers buffers) = length buffers.
Proof.
  exact (@SetupResource_call_order state device debug_build factory
           (start scenario) ResourceState.Valid (snd (fst scenario_created))
           (snd scenario_created) eq_refl).
Defined.

Lemma ping_pong_handoff_witness :
  let frame1 := snd (GPUParticles.OnRunning GPUParticles.new) in
  let frame2 := snd (GPUParticles.OnRunning
                       (fst (GPUParticles.OnRunning GPUParticles.new))) in
  GPUParticles.readIndex frame2 = GPUParticles.drawIndex frame1 /\
  GPUParticles.drawIndex frame2 = GPUParticles.readIndex frame1 /\
  0 <= GPUParticles.readIndex frame1 < GPUParticles.NumParticleBuffers /\
  0 <= GPUParticles.drawIndex frame1 < GPUParticles.NumParticleBuffers.
Proof.
  exact (GPUParticlesFrames.ping_pong_handoff GPUParticles.new
           ltac:(simpl; lia)).
Defined.

Lemma frame_indices_witness :
  let k := Z.of_nat 2 + 1 in
  let frame := snd (GPUParticles.OnRunning
                      (GPUParticles.frames 2 GPUParticles.new)) in
  GPUParticles.frameCount
    (fst (GPUParticles.OnRunning (GPUParticles.frames 2 GPUParticles.new))) = k /\
  GPUParticles.drawIndex frame = k mod 2 /\
  GPUParticles.readIndex frame = (k + 1) mod 2.
Proof.
  exact (GPUParticlesFrames.frame_indices 2 ltac:(simpl; lia)).
Defined.

Lemma scissor_rect_witness :
  let frame := snd (GPUParticles.OnRunning GPUParticles.new) in
  GPUParticles.scissorWidth frame = GPUParticles.ParticleBufferWidth /\
  GPUParticles.ParticleBufferWidth = 2 * GPUParticles.NumParticlesX /\
  (GPUParticles.scissorHeight frame - 1) * GPUParticles.NumParticlesX
    <= GPUParticles.numInstances frame
    < GPUParticles.scissorHeight frame * GPUParticles.NumParticlesX /\
  1 <= GPUParticles.scissorHeight frame <= GPUParticles.ParticleBufferHeight + 1 /\
  (GPUParticles.ParticleBufferHeight < GPUParticles.scissorHeight frame <->
   GPUParticles.numInstances frame = GPUParticles.MaxNumParticles).
Proof.
  exact (GPUParticlesFrames.scissor_rect GPUParticles.new
           ltac:(rewrite GPUParticlesFacts.MaxNumParticles_value; simpl; lia)).
Defined.
(** At the full particle count the scissor rectangle is 1025 rows high,
    the particle buffer 1024. *)
Example scissor_rect_full :
  GPUParticles.scissorHeight
    (snd (GPUParticles.OnRunning
            {| GPUParticles.frameCount := 10486;
               GPUParticles.curNumParticles := GPUParticles.MaxNumParticles |}))
  = 1025.
Proof. reflexivity. Qed.

(** A second [SetupResource] on the resource of the scenario, in a build
    without the debug assertions: it returns, with the entries twice. *)
Example second_create_release :
  match @SetupResource state device release_build factory
          (snd (fst scenario_created_release)) with
  | (r, w', _) =>
      r = Done ResourceState.Valid /\
      length (shader.programEntries (shd w')) = 2%nat /\
      length (shader.uniformBlockEntries (shd w')) = 4%nat
  end.
Proof. vm_compute. repeat split. Qed.
End MoreRuns.
